(** * A shallow embedding of the DocuChat-AI retrieval-and-conversation pipeline

    Modelled files: [src/src/chatbot.py] (class [RAGChatbot]),
    [src/src/retriever.py] ([AdvancedRetriever]), [src/src/embeddings.py]
    ([VectorStoreManager]), [src/src/llm.py] ([LLMManager]) and
    [src/src/ingestion.py] ([DocumentIngestion]).

    The external collaborators (the Ollama model, the Chroma collection, the
    MMR selection of LangChain, the file loaders and the text splitter) are
    gathered in the interface [Env]; every theorem quantifies over it.
    Python exceptions are modelled by a state-and-exception monad whose state
    survives a raise, as Python's mutations do.  Floats are modelled by exact
    rationals [Q]. *)

From Stdlib Require Import QArith.
From stdpp Require Import base list gmap strings pretty.

Open Scope string_scope.

Definition str_len : string -> nat := Stdlib.Strings.String.length.
Definition nl : string := String (Ascii.ascii_of_nat 10) EmptyString.
Definition dq : string := String (Ascii.ascii_of_nat 34) EmptyString.

(** Python's [s[:n]]. *)
Definition str_take (n : nat) (s : string) : string := Stdlib.Strings.String.substring 0 n s.

(** Python's [str.strip()] (ASCII white space). *)
Fixpoint lstrip (s : string) : string :=
  match s with
  | EmptyString => EmptyString
  | String a s' => if Ascii.is_space a then lstrip s' else s
  end.
Definition strip (s : string) : string :=
  String.rev (lstrip (String.rev (lstrip s))).

(** Python's [sep.join(parts)]. *)
Fixpoint join (sep : string) (parts : list string) : string :=
  match parts with
  | [] => ""
  | [p] => p
  | p :: ps => p +:+ sep +:+ join sep ps
  end.

(** Lines of a triple-quoted Python literal. *)
Definition unlines (ls : list string) : string := join nl ls.

(** Python's [l[-n:]]. *)
Definition last_n {A} (n : nat) (l : list A) : list A := drop (length l - n) l.

(** ** Data model *)

(** A metadata value: the code stores strings (file names, paths) and
    integers (page numbers, [chunk_id]). *)
Inductive MVal := MStr (s : string) | MInt (n : nat).

#[global] Instance MVal_eq_dec : EqDecision MVal.
Proof. solve_decision. Defined.

(** [str(v)] / f-string rendering of a metadata value. *)
Definition mval_str (v : MVal) : string :=
  match v with MStr s => s | MInt n => pretty (N.of_nat n) end.

(** [langchain.schema.Document]. *)
Record Document := mkDocument {
  page_content : string;
  metadata : gmap string MVal
}.

(** [metadata.get(key, default)]. *)
Definition meta_get (d : Document) (key : string) (dflt : MVal) : MVal :=
  default dflt (metadata d !! key).

(** A record of the Chroma collection: the document it returns, tagged with
    the identifier of the record it comes from. *)
Record Rec := mkRec { rec_id : nat; rec_doc : Document }.

(** [HumanMessage] / [AIMessage]. *)
Inductive Msg := HumanMessage (content : string) | AIMessage (content : string).

(** [self.stats]. *)
Record Stats := mkStats {
  total_queries : nat;
  successful_retrievals : nat;
  average_context_length : Q
}.

Definition zero_stats : Stats := mkStats 0 0 0.

(** The session: the persisted Chroma directory ([None] when it does not
    exist), whether [vs_manager.vector_store] holds a handle, the chat history
    and the statistics. *)
Record Session := mkSession {
  persisted : option (list Rec);
  vector_store : bool;
  chat_history : list Msg;
  stats : Stats
}.

Definition set_persisted (p : option (list Rec)) (s : Session) : Session :=
  mkSession p (vector_store s) (chat_history s) (stats s).
Definition set_vector_store (b : bool) (s : Session) : Session :=
  mkSession (persisted s) b (chat_history s) (stats s).
Definition set_chat_history (h : list Msg) (s : Session) : Session :=
  mkSession (persisted s) (vector_store s) h (stats s).
Definition set_stats (st : Stats) (s : Session) : Session :=
  mkSession (persisted s) (vector_store s) (chat_history s) st.

(** ** Python exceptions over the session state *)

Inductive Exc (A : Type) := Ok (a : A) | Raise (msg : string).
Arguments Ok {A} a.
Arguments Raise {A} msg.

Definition M (A : Type) : Type := Session -> Session * Exc A.

Definition ret {A} (a : A) : M A := fun s => (s, Ok a).
Definition raise {A} (msg : string) : M A := fun s => (s, Raise msg).
Definition bind {A B} (m : M A) (k : A -> M B) : M B :=
  fun s => match m s with
           | (s', Ok a) => k a s'
           | (s', Raise e) => (s', Raise e)
           end.
Definition get : M Session := fun s => (s, Ok s).
Definition modify (f : Session -> Session) : M unit := fun s => (f s, Ok tt).

Notation "'let*' x := m 'in' k" := (bind m (fun x => k))
  (at level 200, x name, m at level 100, k at level 200).
Notation "m ;; k" := (bind m (fun _ => k)) (at level 100, right associativity).

(** ** The external collaborators *)

Class Env := {
  (** [self.llm(prompt)] of Ollama: a completion, or the message of the
      exception it raises. *)
  llm : string -> Exc string;
  (** The Chroma collection query: the [n] nearest records of the store to the
      query text, each with its distance (ascending). *)
  knn : list Rec -> string -> nat -> list (Rec * Q);
  (** LangChain's [maximal_marginal_relevance]: the indices it selects among
      the fetched candidates, for the requested [k]. *)
  mmr : string -> list (Rec * Q) -> nat -> list nat;
  (** The loaders of [load_documents(directory)]. *)
  load_documents : string -> list Document;
  (** [RecursiveCharacterTextSplitter.split_text]. *)
  split_text : string -> list string;
  (** [config['retrieval']['k']]. *)
  config_k : nat
}.

Section Pipeline.
Context `{E : Env}.

(** ** [VectorStoreManager] (embeddings.py) *)

(** The records currently in the persisted collection. *)
Definition store_of (s : Session) : list Rec := default [] (persisted s).

(** [load_vector_store]: when the directory is absent it returns [None] and
    leaves [self.vector_store] as it is. *)
Definition load_vector_store : M bool :=
  let* s := get in
  match persisted s with
  | None => ret false
  | Some _ => modify (set_vector_store true) ;; ret true
  end.

(** The common prologue of [similarity_search] and
    [similarity_search_with_score]:
    [if self.vector_store is None: self.vector_store = self.load_vector_store()]
    then raise when it is still [None]. *)
Definition require_store : M (list Rec) :=
  let* s := get in
  (if vector_store s then ret tt
   else let* b := load_vector_store in modify (set_vector_store b)) ;;
  let* s := get in
  if vector_store s then ret (store_of s)
  else raise "No vector store available. Create one first.".

Definition similarity_search_with_score (query : string) (k : nat)
  : M (list (Rec * Q)) :=
  let* store := require_store in
  ret (knn store query k).

(** LangChain's [Chroma.similarity_search] returns the documents of
    [similarity_search_with_score] without their scores. *)
Definition similarity_search (query : string) (k : nat) : M (list Rec) :=
  let* store := require_store in
  ret (map fst (knn store query k)).

(** New Chroma records for [documents], with fresh identifiers. *)
Definition new_records (base : nat) (documents : list Document) : list Rec :=
  imap (fun i d => mkRec (base + i) d) documents.

(** [create_vector_store]: [Chroma.from_documents] into the persist
    directory, then [persist()]. *)
Definition create_vector_store (documents : list Document) : M unit :=
  modify (fun s =>
    let old := store_of s in
    set_vector_store true
      (set_persisted (Some (old ++ new_records (length old) documents)%list) s)).

(** [add_documents]. *)
Definition add_documents (documents : list Document) : M unit :=
  let* s := get in
  (if vector_store s then ret tt
   else let* b := load_vector_store in modify (set_vector_store b)) ;;
  let* s := get in
  if vector_store s then
    modify (fun s =>
      let old := store_of s in
      set_persisted (Some (old ++ new_records (length old) documents)%list) s)
  else create_vector_store documents.

(** [delete_vector_store]: [shutil.rmtree] of the directory when it exists,
    then [self.vector_store = None]. *)
Definition delete_vector_store : M unit :=
  modify (fun s => set_vector_store false (set_persisted None s)).

(** ** [AdvancedRetriever] (retriever.py) *)

(** [if k is None: k = self.k]. *)
Definition k_or_default (k : option nat) : nat := default config_k k.

Definition retrieve (query : string) (k : option nat) : M (list Rec) :=
  similarity_search query (k_or_default k).

Definition retrieve_with_scores (query : string) (k : option nat)
  : M (list (Rec * Q)) :=
  similarity_search_with_score query (k_or_default k).

(** The test [score <= (1 - score_threshold)]. *)
Definition within_cutoff (score_threshold : Q) (r : Rec * Q) : bool :=
  Qle_bool (snd r) (1 - score_threshold).

Definition retrieve_with_threshold (query : string) (k : option nat)
  (score_threshold : Q) : M (list Rec) :=
  let* results := similarity_search_with_score query (k_or_default k) in
  ret (map fst (filter (within_cutoff score_threshold) results)).

(** [[r for i, r in enumerate(candidates) if i in mmr_selected]], the last
    step of LangChain's [Chroma.max_marginal_relevance_search_by_vector]. *)
Fixpoint pick_selected (i : nat) (mmr_selected : list nat)
    (candidates : list (Rec * Q)) : list Rec :=
  match candidates with
  | [] => []
  | c :: cs =>
      (if bool_decide (i ∈ mmr_selected) then [fst c] else [])
        ++ pick_selected (S i) mmr_selected cs
  end.

(** [retrieve_diverse]: [max_marginal_relevance_search(query, k=k,
    fetch_k=k*3)] when a store handle is present, else [[]]. *)
Definition retrieve_diverse (query : string) (k : option nat) : M (list Rec) :=
  let k := k_or_default k in
  let* s := get in
  if vector_store s then
    let candidates := knn (store_of s) query (k * 3) in
    ret (pick_selected 0 (mmr query candidates k) candidates)
  else ret [].

(** One entry of [get_context_string]. *)
Definition context_part (i : nat) (doc : Document) : string :=
  "[Document " +:+ pretty (N.of_nat i) +:+ "] (Source: "
  +:+ mval_str (meta_get doc "filename" (MStr "Unknown source"))
  +:+ ", Page: " +:+ mval_str (meta_get doc "page" (MStr "N/A")) +:+ ")"
  +:+ nl +:+ page_content doc +:+ nl.

Fixpoint context_parts (i : nat) (documents : list Document) : list string :=
  match documents with
  | [] => []
  | d :: ds => context_part i d :: context_parts (S i) ds
  end.

Definition get_context_string (documents : list Rec) : string :=
  join (nl +:+ "---" +:+ nl) (context_parts 1 (map rec_doc documents)).

(** ** [LLMManager] (llm.py) *)

Definition system_message (context : string) : string :=
  unlines [
    "You are a helpful AI assistant that answers questions based on the provided context.";
    "";
    "Instructions:";
    "1. Answer the question using ONLY the information from the context below";
    "2. If the context doesn't contain enough information, say " +:+ dq
      +:+ "I don't have enough information in the provided documents to answer this question." +:+ dq;
    "3. Be concise but comprehensive";
    "4. Cite the source document when possible";
    "5. If asked about something not in the context, politely decline and explain why";
    "";
    "Context:";
    context;
    "";
    "Remember: Only use information from the context above. Do not use your general knowledge."].

Definition render_msg (m : Msg) : string :=
  match m with
  | HumanMessage c => "Human: " +:+ c +:+ nl
  | AIMessage c => "Assistant: " +:+ c +:+ nl
  end.

(** The loop over [chat_history[-4:]]. *)
Definition history_text (chat_history : list Msg) : string :=
  foldr (fun m acc => render_msg m +:+ acc) "" (last_n 4 chat_history).

(** [full_prompt] of [generate_answer] and [generate_answer_streaming]; the
    history argument [None] and [[]] are both falsy and are both [[]] here. *)
Definition answer_prompt (question context : string) (chat_history : list Msg)
  : string :=
  system_message context +:+ nl +:+ nl
  +:+ (match chat_history with
       | [] => ""
       | _ => "Previous conversation:" +:+ nl +:+ history_text chat_history +:+ nl
       end)
  +:+ "Human: " +:+ question +:+ nl +:+ nl +:+ "Assistant:".

Definition generate_answer (question context : string) (chat_history : list Msg)
  : string :=
  match llm (answer_prompt question context chat_history) with
  | Ok response => strip response
  | Raise e => "Error generating response: " +:+ e +:+ nl +:+ nl
               +:+ "Please make sure Ollama is running."
  end.

(** [word + " "] for every word but the last. *)
Fixpoint spaced_words (words : list string) : list string :=
  match words with
  | [] => []
  | [w] => [w]
  | w :: ws => (w +:+ " ") :: spaced_words ws
  end.

(** The fragments yielded by the generator [generate_answer_streaming]. *)
Definition generate_answer_streaming (question context : string)
  (chat_history : list Msg) : list string :=
  match llm (answer_prompt question context chat_history) with
  | Ok response => spaced_words (String.words response)
  | Raise e => ["Error: " +:+ e]
  end.

Definition rephrase_prompt (history_text question : string) : string :=
  unlines [
    "Given the conversation history, rephrase the follow-up question to be a standalone question.";
    "";
    "Chat History:";
    history_text;
    "";
    "Follow-up Question: " +:+ question;
    "";
    "Rephrased Standalone Question:"].

Definition rephrase_question (question : string) (chat_history : list Msg)
  : string :=
  match chat_history with
  | [] => question
  | _ =>
      match llm (rephrase_prompt (history_text chat_history) question) with
      | Ok response => strip response
      | Raise _ => question
      end
  end.

(** ** [DocumentIngestion] (ingestion.py) *)

(** LangChain's [split_documents]: each document's text is split and every
    piece carries a copy of the document's metadata. *)
Definition split_documents (documents : list Document) : list Document :=
  documents ≫= (fun d =>
    map (fun t => mkDocument t (metadata d)) (split_text (page_content d))).

(** [chunk_documents]: [chunk.metadata['chunk_id'] = i] over
    [enumerate(chunks)]. *)
Definition chunk_documents (documents : list Document) : list Document :=
  imap (fun i c => mkDocument (page_content c)
                     (<["chunk_id" := MInt i]> (metadata c)))
       (split_documents documents).

Definition process_documents (directory : string) : list Document :=
  chunk_documents (load_documents directory).

End Pipeline.

(** ** [RAGChatbot] (chatbot.py) *)

(** One entry of the [sources] list of [query]. *)
Record Source := mkSource {
  src_filename : MVal;
  src_page : MVal;
  content_preview : string
}.

(** The dictionary returned by [query]; the failure dictionary has no
    [context] and no [retrieved_docs] key. *)
Record Response := mkResponse {
  answer : string;
  sources : list Source;
  context : option string;
  retrieved_docs : option nat;
  success : bool
}.

(** The dictionary returned by [initialize_knowledge_base]. *)
Record InitResult := mkInitResult {
  init_success : bool;
  message : string;
  chunks : nat;
  documents : option nat
}.

(** One item yielded by [query_streaming]. *)
Record StreamItem := mkStreamItem {
  chunk : string;
  item_sources : list MVal
}.

Definition QofN (n : nat) : Q := inject_Z (Z.of_nat n).

Definition no_kb_response : Response :=
  mkResponse "No knowledge base found. Please initialize with documents first."
    [] None None false.

Definition source_of (d : Rec) : Source :=
  mkSource (meta_get (rec_doc d) "filename" (MStr "Unknown"))
           (meta_get (rec_doc d) "page" (MStr "N/A"))
           (str_take 150 (page_content (rec_doc d)) +:+ "...").

(** [self.stats["total_queries"] += 1]. *)
Definition incr_total (st : Stats) : Stats :=
  mkStats (S (total_queries st)) (successful_retrievals st)
          (average_context_length st).

(** [self.stats["successful_retrievals"] += 1]. *)
Definition incr_successful (st : Stats) : Stats :=
  mkStats (total_queries st) (S (successful_retrievals st))
          (average_context_length st).

(** [(avg * (total_queries - 1) + len(context)) / total_queries]. *)
Definition running_average (avg : Q) (total : nat) (len : nat) : Q :=
  (avg * QofN (total - 1) + QofN len) / QofN total.

Definition update_average (len : nat) (st : Stats) : Stats :=
  mkStats (total_queries st) (successful_retrievals st)
          (running_average (average_context_length st) (total_queries st) len).

(** Appending the pair, then [if len(self.chat_history) > 10:
    self.chat_history = self.chat_history[-10:]]. *)
Definition record_turn (question answer : string) (h : list Msg) : list Msg :=
  let h' := (h ++ [HumanMessage question; AIMessage answer])%list in
  if bool_decide (10 < length h') then last_n 10 h' else h'.

Section Chatbot.
Context `{E : Env}.

(** Lines 101-107 of [query] (and 173-178 of [query_streaming]). *)
Definition search_query_of (question : string) (use_history : bool)
  (chat_history : list Msg) : string :=
  if use_history && bool_decide (chat_history <> []) then
    rephrase_question question chat_history
  else question.

(** The dispatch on [retrieval_method]. *)
Definition retrieve_by (retrieval_method : string) (search_query : string)
  (k : option nat) : M (list Rec) :=
  if bool_decide (retrieval_method = "diverse") then
    retrieve_diverse search_query k
  else if bool_decide (retrieval_method = "threshold") then
    retrieve_with_threshold search_query k (7 # 10)
  else retrieve search_query k.

Definition query (question : string) (use_history : bool)
  (retrieval_method : string) (k : option nat) : M Response :=
  modify (fun s => set_stats (incr_total (stats s)) s) ;;
  let* s := get in
  let* ready :=
    (if vector_store s then ret true
     else load_vector_store ;; let* s := get in ret (vector_store s)) in
  if negb ready then ret no_kb_response
  else
    let* s := get in
    let search_query := search_query_of question use_history (chat_history s) in
    let* documents := retrieve_by retrieval_method search_query k in
    (if bool_decide (documents <> []) then
       modify (fun s => set_stats (incr_successful (stats s)) s)
     else ret tt) ;;
    let context := get_context_string documents in
    modify (fun s => set_stats (update_average (str_len context) (stats s)) s) ;;
    let* s := get in
    let answer := generate_answer question context
                    (if use_history then chat_history s else []) in
    (if use_history then
       modify (fun s => set_chat_history (record_turn question answer (chat_history s)) s)
     else ret tt) ;;
    ret (mkResponse answer (map source_of documents) (Some context)
           (Some (length documents)) true).

(** The generator object of [query_streaming]: not started, suspended at the
    [yield] of its loop (with the fragments still to come, the answer so far
    and the retrieved documents), or finished. *)
Inductive Gen :=
  | GenStart (question : string) (use_history : bool) (k : option nat)
  | GenLoop (question : string) (use_history : bool) (pending : list string)
            (full_answer : string) (documents : list Rec)
  | GenDone.

(** One turn of the [for chunk in ...] loop, or the code after it. *)
Definition gen_loop_next (question : string) (use_history : bool)
  (pending : list string) (full_answer : string) (documents : list Rec)
  : M (option StreamItem * Gen) :=
  match pending with
  | [] =>
      (if use_history then
         modify (fun s => set_chat_history
           (chat_history s ++ [HumanMessage question; AIMessage full_answer])%list s)
       else ret tt) ;;
      ret (None, GenDone)
  | c :: rest =>
      ret (Some (mkStreamItem c
                   (map (fun d => meta_get (rec_doc d) "filename" (MStr "Unknown"))
                        documents)),
           GenLoop question use_history rest (full_answer +:+ c) documents)
  end.

(** [next()] on the generator; [None] is [StopIteration]. *)
Definition gen_next (g : Gen) : M (option StreamItem * Gen) :=
  match g with
  | GenDone => ret (None, GenDone)
  | GenLoop q uh p f d => gen_loop_next q uh p f d
  | GenStart question use_history k =>
      let* s := get in
      (if vector_store s then ret tt else load_vector_store ;; ret tt) ;;
      let* s := get in
      let search_query := search_query_of question use_history (chat_history s) in
      let* documents := retrieve search_query k in
      let context := get_context_string documents in
      let* s := get in
      let fragments := generate_answer_streaming question context
                         (if use_history then chat_history s else []) in
      gen_loop_next question use_history fragments "" documents
  end.

(** A caller that calls [next()] at most [n] times, stopping at
    [StopIteration]. *)
Fixpoint consume (n : nat) (g : Gen) : M (list StreamItem * Gen) :=
  match n with
  | 0 => ret ([], g)
  | S n' =>
      let* r := gen_next g in
      match r with
      | (None, g') => ret ([], g')
      | (Some it, g') =>
          let* r' := consume n' g' in ret (it :: fst r', snd r')
      end
  end.

(** [query_streaming(question, use_history, k)] consumed by [nexts] calls of
    [next()]. *)
Definition query_streaming (question : string) (use_history : bool)
  (k : option nat) (nexts : nat) : M (list StreamItem * Gen) :=
  consume nexts (GenStart question use_history k).

Definition initialize_knowledge_base (data_directory : string) : M InitResult :=
  let chunks := process_documents data_directory in
  match chunks with
  | [] => ret (mkInitResult false "No documents found to process" 0 None)
  | _ =>
      let* existing_store := load_vector_store in
      (if existing_store then add_documents chunks
       else create_vector_store chunks) ;;
      ret (mkInitResult true "Knowledge base initialized successfully"
             (length chunks)
             (Some (length (remove_dups (map (fun c => metadata c !! "filename") chunks)))))
  end.

Definition clear_history : M unit := modify (set_chat_history []).

Definition reset_knowledge_base : M unit :=
  delete_vector_store ;; clear_history ;; modify (set_stats zero_stats).

(** ** Sessions: sequences of calls *)

Inductive Op :=
  | OpQuery (question : string) (use_history : bool)
            (retrieval_method : string) (k : option nat)
  | OpStream (question : string) (use_history : bool) (k : option nat)
             (nexts : nat)
  | OpInit (data_directory : string)
  | OpClearHistory
  | OpReset.

Inductive Reply :=
  | RQuery (r : Response)
  | RStream (items : list StreamItem)
  | RInit (r : InitResult)
  | RUnit.

Definition exec_op (o : Op) : M Reply :=
  match o with
  | OpQuery q uh m k => let* r := query q uh m k in ret (RQuery r)
  | OpStream q uh k n => let* r := query_streaming q uh k n in ret (RStream (fst r))
  | OpInit d => let* r := initialize_knowledge_base d in ret (RInit r)
  | OpClearHistory => clear_history ;; ret RUnit
  | OpReset => reset_knowledge_base ;; ret RUnit
  end.

(** The caller goes on after a call that raised; the state it leaves stays. *)
Fixpoint run_ops (ops : list Op) (s : Session) : Session * list (Exc Reply) :=
  match ops with
  | [] => (s, [])
  | o :: os =>
      let (s1, r) := exec_op o s in
      let (s2, rs) := run_ops os s1 in
      (s2, r :: rs)
  end.

End Chatbot.

(** ** Reading of the claims *)

(** [chunk_id] of a chunk. *)
Definition chunk_id_of (c : Document) : option MVal := metadata c !! "chunk_id".

(** Positions "restarting at the first chunk of each source document":
    every document's pieces numbered 0, 1, 2, ... on their own. *)
Definition per_document_positions `{E : Env} (documents : list Document)
  : list Document :=
  documents ≫= (fun d =>
    imap (fun i t => mkDocument t (<["chunk_id" := MInt i]> (metadata d)))
         (split_text (page_content d))).

(** The context length observed by a call: [len(context)] of a successful
    [query]; other calls observe none. *)
Definition observed_length (r : Exc Reply) : nat :=
  match r with
  | Ok (RQuery resp) => match context resp with Some c => str_len c | None => 0 end
  | _ => 0
  end.

Definition observed_count (r : Exc Reply) : nat :=
  match r with
  | Ok (RQuery resp) => match context resp with Some _ => 1 | None => 0 end
  | _ => 0
  end.

Definition observed_total (rs : list (Exc Reply)) : nat :=
  sum_list (map observed_length rs).

Definition observed_queries (rs : list (Exc Reply)) : nat :=
  sum_list (map observed_count rs).

Definition is_query (o : Op) : nat :=
  match o with OpQuery _ _ _ _ => 1 | _ => 0 end.

Definition is_reset (o : Op) : bool :=
  match o with OpReset => true | _ => false end.

(** ** A concrete deployment used by the witnesses *)
Module Demo.

Definition doc_a : Document :=
  mkDocument "Python was created by Guido van Rossum."
    (<["filename" := MStr "a.txt"]> (<["source" := MStr "data/raw/a.txt"]> ∅)).
Definition doc_b : Document :=
  mkDocument "Python supports multiple paradigms."
    (<["filename" := MStr "b.txt"]> (<["source" := MStr "data/raw/b.txt"]> ∅)).

(** Both texts are shorter than any chunk size and are kept whole. *)
#[local] Instance env : Env := {|
  llm := fun _ => Ok " Guido van Rossum created Python. ";
  knn := fun store _ n => map (fun r => (r, 1 # 10)) (firstn n store);
  mmr := fun _ candidates k => seq 0 (Nat.min k (length candidates));
  load_documents := fun _ => [doc_a; doc_b];
  split_text := fun t => [t];
  config_k := 4
|}.

(** The same deployment with the Ollama server down. *)
#[local] Instance env_down : Env := {|
  llm := fun _ => Raise "Connection refused";
  knn := fun store _ n => map (fun r => (r, 1 # 10)) (firstn n store);
  mmr := fun _ candidates k => seq 0 (Nat.min k (length candidates));
  load_documents := fun _ => [doc_a; doc_b];
  split_text := fun t => [t];
  config_k := 4
|}.

Definition fresh : Session := mkSession None false [] zero_stats.

Definition ready_store : list Rec := [mkRec 0 doc_a; mkRec 1 doc_b].

Definition ready : Session := mkSession (Some ready_store) true [] zero_stats.

Definition ready_with_history : Session :=
  mkSession (Some ready_store) true
    [HumanMessage "Who created Python?"; AIMessage "Guido van Rossum."]
    zero_stats.

Definition six_streams : list Op :=
  repeat (OpStream "Who created Python?" true None 100) 6.

End Demo.

(** ** The rest of the retriever, the statistics report and the loaders *)

(** The dictionary returned by [get_stats]: [**self.stats] and two more
    keys. *)
Record StatsReport := mkStatsReport {
  report_total_queries : nat;
  report_successful_retrievals : nat;
  report_average_context_length : Q;
  chat_history_length : nat;
  vector_store_exists : bool
}.

Section Further.
Context `{E : Env}.

(** The [where] clause [{key: value}] of a Chroma query: the records whose
    metadata holds [value] at [key]. *)
Definition meta_matches (key : string) (value : MVal) (r : Rec) : bool :=
  bool_decide (metadata (rec_doc r) !! key = Some value).

(** [retrieve_with_metadata_filter(query, {key: value}, k)]: the store's
    [similarity_search(query, k=k, filter=...)], which searches the matching
    records only, when a store handle is present; [[]] otherwise. *)
Definition retrieve_with_metadata_filter (query : string) (key : string)
  (value : MVal) (k : option nat) : M (list Rec) :=
  let k := k_or_default k in
  let* s := get in
  if vector_store s then
    ret (map fst (knn (filter (meta_matches key value) (store_of s)) query k))
  else ret [].

Definition get_stats : M StatsReport :=
  let* s := get in
  ret (mkStatsReport (total_queries (stats s)) (successful_retrievals (stats s))
         (average_context_length (stats s)) (length (chat_history s))
         (vector_store s)).

End Further.

(** The components of a POSIX path split at [/]. *)
Fixpoint path_components_go (cur : string) (s : string) : list string :=
  match s with
  | EmptyString => [cur]
  | String a s' =>
      if bool_decide (a = Ascii.ascii_of_nat 47) then cur :: path_components_go "" s'
      else path_components_go (cur +:+ String a "") s'
  end.

(** The parts [PurePosixPath] keeps: empty components (from [//] or a
    trailing [/]) and [.] are dropped. *)
Definition path_parts (p : string) : list string :=
  filter (fun c => c <> "" /\ c <> ".") (path_components_go "" p).

(** [Path(p).name]. *)
Definition path_name (p : string) : string := default "" (last (path_parts p)).

(** [str.rfind('.')], [None] for [-1]. *)
Fixpoint rfind_dot_go (i : nat) (s : string) (found : option nat) : option nat :=
  match s with
  | EmptyString => found
  | String a s' =>
      rfind_dot_go (S i) s' (if bool_decide (a = Ascii.ascii_of_nat 46) then Some i else found)
  end.

(** [Path(p).suffix]: [name[i:]] for [i = name.rfind('.')] when
    [0 < i < len(name) - 1], else [""]. *)
Definition path_suffix (p : string) : string :=
  let name := path_name p in
  match rfind_dot_go 0 name None with
  | Some i =>
      if bool_decide (0 < i < str_len name - 1)
      then Stdlib.Strings.String.substring i (str_len name - i) name
      else ""
  | None => ""
  end.

(** [str.lower()] on ASCII letters. *)
Definition lower_char (a : Ascii.ascii) : Ascii.ascii :=
  let n := Ascii.nat_of_ascii a in
  if bool_decide (65 <= n <= 90) then Ascii.ascii_of_nat (n + 32) else a.

Fixpoint lower (s : string) : string :=
  match s with
  | EmptyString => EmptyString
  | String a s' => String (lower_char a) (lower s')
  end.

(** [DocumentIngestion.load_document] and [load_documents], over the file
    loaders of LangChain and the directory walk. *)
Module Ingestion.
Section Loaders.
Context `{E : Env}.

(** [loaders[ext](file_path).load()]: the pages the loader class registered
    for [ext] reads from the file, or the message of the exception it
    raises. *)
Variable loader_load : string -> string -> Exc (list Document).

(** [Path(directory).glob('**/*')], each path as [str(file_path)]. *)
Variable glob_all : string -> list string.

(** The keys of the [loaders] dictionary. *)
Definition loaders : list string := [".pdf"; ".txt"; ".docx"].

Definition supported_extensions : list string := [".pdf"; ".txt"; ".docx"].

(** [doc.metadata['source'] = file_path] then
    [doc.metadata['filename'] = Path(file_path).name]. *)
Definition tag_file (file_path : string) (doc : Document) : Document :=
  mkDocument (page_content doc)
    (<["filename" := MStr (path_name file_path)]>
       (<["source" := MStr file_path]> (metadata doc))).

Definition load_document (file_path : string) : Exc (list Document) :=
  let file_extension := lower (path_suffix file_path) in
  if bool_decide (file_extension ∈ loaders) then
    match loader_load file_extension file_path with
    | Ok documents => Ok (map (tag_file file_path) documents)
    | Raise e => Raise e
    end
  else Raise ("Unsupported file type: " +:+ file_extension).

(** The loop of [load_documents]: a file whose loading raises is skipped. *)
Fixpoint load_files (paths : list string) : list Document :=
  match paths with
  | [] => []
  | file_path :: rest =>
      ((if bool_decide (lower (path_suffix file_path) ∈ supported_extensions)
        then match load_document file_path with
             | Ok docs => docs
             | Raise _ => []
             end
        else []) ++ load_files rest)%list
  end.

Definition load_documents (directory : string) : list Document :=
  load_files (glob_all directory).

Definition process_documents (directory : string) : list Document :=
  chunk_documents (load_documents directory).

End Loaders.
End Ingestion.

(** The history is a sequence of (question, answer) pairs. *)
Fixpoint pairs (h : list Msg) : bool :=
  match h with
  | [] => true
  | HumanMessage _ :: AIMessage _ :: h' => pairs h'
  | _ => false
  end.

(** The text a consumer of [query_streaming] has received. *)
Definition streamed_text (items : list StreamItem) : string :=
  foldl (fun acc c => acc +:+ c) "" (map chunk items).

(** A [query_streaming] call that records its turn in the history. *)
Definition streams_history (o : Op) : bool :=
  match o with OpStream _ true _ _ => true | _ => false end.

Module Demo2.

(** A persisted collection that has not been loaded yet. *)
Definition stored_unloaded : Session :=
  mkSession (Some Demo.ready_store) false [] zero_stats.

Definition six_messages : list Msg :=
  [HumanMessage "Hi"; AIMessage "Hello.";
   HumanMessage "Who created Python?"; AIMessage "Guido van Rossum.";
   HumanMessage "When?"; AIMessage "In 1991."].

Definition mixed_ops : list Op :=
  [OpQuery "Who created Python?" true "basic" None;
   OpInit "data/raw";
   OpQuery "Who created Python?" true "threshold" None;
   OpStream "When?" true None 2;
   OpQuery "When?" false "diverse" (Some 1);
   OpClearHistory;
   OpQuery "Who created Python?" true "basic" None].

(** Two text files under [data/raw], one of them in a sub-directory, and a
    file of an unsupported type. *)
Definition files : list string :=
  ["data/raw/notes.TXT"; "data/raw/img.png"; "data/raw/sub/guide.txt"].

Definition loader (ext path : string) : Exc (list Document) :=
  if bool_decide (ext = ".txt") then
    Ok [mkDocument ("Contents of " +:+ path) (<["source" := MStr path]> ∅)]
  else Raise "no loader".

End Demo2.

(** * Proofs *)

(** ** Monad and model lemmas *)

(** Run the monadic glue and the record updates, leaving the model's own
    functions folded. *)
Ltac mred :=
  cbv beta iota zeta delta [bind ret get modify raise negb andb
    set_stats set_chat_history set_vector_store set_persisted
    vector_store stats chat_history persisted] in *.

Lemma bind_unfold {A B} (m : M A) (k : A -> M B) (s : Session) :
  bind m k s = match m s with
               | (s', Ok a) => k a s'
               | (s', Raise e) => (s', Raise e)
               end.
Proof. reflexivity. Qed.

Lemma map_fst_filter_sublist {A B} (f : A * B -> bool) (l : list (A * B)) :
  map fst (filter f l) `sublist_of` map fst l.
Proof.
  induction l as [|x l IH]; [constructor|].
  rewrite filter_cons. destruct (decide (f x)); simpl.
  - by apply sublist_skip.
  - by apply sublist_cons.
Qed.

Lemma map_fst_filter_elem {A B} (f : A * B -> bool) (l : list (A * B)) (x : A) :
  x ∈ map fst (filter f l) <-> exists b, (x, b) ∈ l /\ f (x, b) = true.
Proof.
  induction l as [|[a b] l IH]; simpl.
  - split; [intros Hx; inversion Hx|intros (b & Hb & _); inversion Hb].
  - rewrite filter_cons. destruct (decide (f (a, b))) as [Hf|Hf]; simpl.
    + rewrite elem_of_cons, IH. split.
      * intros [->|(b' & Hb' & Hf')]; [exists b|exists b'];
          split; try apply elem_of_cons; auto. by apply Is_true_true.
      * intros (b' & Hb' & Hf'). apply elem_of_cons in Hb' as [Hb'|Hb'].
        -- inversion Hb'; subst. by left.
        -- right. eauto.
    + rewrite IH. split.
      * intros (b' & Hb' & Hf'). exists b'. split; [by apply elem_of_cons; right|done].
      * intros (b' & Hb' & Hf'). apply elem_of_cons in Hb' as [Hb'|Hb'].
        -- inversion Hb'; subst. exfalso. apply Hf. by rewrite Hf'.
        -- eauto.
Qed.

Lemma require_store_ready `{E : Env} (s : Session) :
  vector_store s = true -> require_store s = (s, Ok (store_of s)).
Proof.
  destruct s as [p vs h st]; simpl. intros ->. reflexivity.
Qed.

Lemma retrieve_by_ready `{E : Env} (m q : string) (k : option nat) (s : Session) :
  vector_store s = true -> exists r, retrieve_by m q k s = (s, Ok r).
Proof.
  intros Hvs. unfold retrieve_by.
  case_bool_decide; [|case_bool_decide].
  - unfold retrieve_diverse. rewrite bind_unfold. simpl. rewrite Hvs. eauto.
  - unfold retrieve_with_threshold, similarity_search_with_score.
    rewrite !bind_unfold, require_store_ready by done. simpl. eauto.
  - unfold retrieve, similarity_search.
    rewrite !bind_unfold, require_store_ready by done. simpl. eauto.
Qed.

(** [query] never raises. *)
Lemma query_returns `{E : Env} (q : string) (uh : bool) (m : string)
  (k : option nat) (s : Session) :
  exists s' r, query q uh m k s = (s', Ok r).
Proof.
  destruct s as [p vs h st]. unfold query, load_vector_store. mred.
  destruct vs; [|destruct p as [store|]; mred; [|eauto]].
  all: match goal with
       | |- context [retrieve_by ?mm ?sq ?kk ?s1] =>
           destruct (retrieve_by_ready mm sq kk s1) as [r ->]; [done|]
       end.
  all: mred; destruct (bool_decide _), uh; mred; eauto.
Qed.

Lemma map_fmap_eq {A B} (f : A -> B) (l : list A) : map f l = f <$> l.
Proof. induction l as [|x l IH]; simpl; [done|]. by rewrite IH. Qed.

Lemma pick_selected_sublist (i : nat) (sel : list nat) (cands : list (Rec * Q)) :
  pick_selected i sel cands `sublist_of` map fst cands.
Proof.
  revert i. induction cands as [|c cs IH]; intros i; simpl; [constructor|].
  case_bool_decide; simpl.
  - by apply sublist_skip.
  - by apply sublist_cons.
Qed.

(** ** C3 *)

(** C3: with no vector store handle and no persisted directory (an
    uninitialized session), [query] does not raise: it returns
    [success = False], no sources and the message asking to initialize with
    documents; the only change to the session is [total_queries + 1]. *)
Theorem query_without_knowledge_base `{E : Env} (s : Session)
  (question : string) (use_history : bool) (retrieval_method : string)
  (k : option nat) :
  vector_store s = false -> persisted s = None ->
  exists r, query question use_history retrieval_method k s
            = (set_stats (incr_total (stats s)) s, Ok r) /\
    success r = false /\ sources r = [] /\
    answer r = "No knowledge base found. Please initialize with documents first.".
Proof.
  destruct s as [p vs h st]; simpl; intros -> ->.
  unfold query, load_vector_store. mred.
  eexists; repeat split.
Qed.

Lemma query_without_knowledge_base_witness :
  vector_store Demo.fresh = false /\ persisted Demo.fresh = None /\
  exists r, @query Demo.env "Who created Python?" true "basic" None Demo.fresh
            = (set_stats (incr_total (stats Demo.fresh)) Demo.fresh, Ok r) /\
    success r = false /\ sources r = [] /\
    answer r = "No knowledge base found. Please initialize with documents first.".
Proof.
  split; [reflexivity|]. split; [reflexivity|].
  apply (@query_without_knowledge_base Demo.env); reflexivity.
Defined.

(** ** C4 *)

(** C4: threshold retrieval and basic retrieval with the same query and [k]
    leave the same state; when they succeed, the threshold result is an
    order-preserving sub-list of the basic result (the same records, in the
    same ranking), and when they fail they raise the same error. *)
Theorem threshold_within_basic `{E : Env} (s : Session) (q : string)
  (k : option nat) (t : Q) :
  fst (retrieve_with_threshold q k t s) = fst (retrieve q k s) /\
  match snd (retrieve_with_threshold q k t s), snd (retrieve q k s) with
  | Ok r1, Ok r2 => r1 `sublist_of` r2
  | Raise e1, Raise e2 => e1 = e2
  | _, _ => False
  end.
Proof.
  unfold retrieve_with_threshold, retrieve, similarity_search,
    similarity_search_with_score. mred.
  destruct (require_store s) as [s1 [store|e]]; mred; split; try done.
  apply map_fst_filter_sublist.
Qed.

(** ** C5 *)

(** C5: threshold retrieval keeps exactly the records of the scored top-[k]
    whose distance is at most [1 - t], in their order; an empty result is an
    ordinary result, and it raises only when the scored search raises. *)
Theorem threshold_exact_cutoff `{E : Env} (s : Session) (q : string)
  (k : option nat) (t : Q) :
  match retrieve_with_scores q k s with
  | (s', Ok results) =>
      exists r, retrieve_with_threshold q k t s = (s', Ok r) /\
        r = map fst (filter (within_cutoff t) results) /\
        (forall x, x ∈ r <-> exists d, (x, d) ∈ results /\ (d <= 1 - t)%Q)
  | (s', Raise e) => retrieve_with_threshold q k t s = (s', Raise e)
  end.
Proof.
  unfold retrieve_with_threshold, retrieve_with_scores. mred.
  destruct (similarity_search_with_score q (k_or_default k) s)
    as [s1 [results|e]]; mred; [|done].
  eexists; split; [reflexivity|]. split; [reflexivity|].
  intros x. rewrite map_fst_filter_elem. unfold within_cutoff; simpl.
  split; intros (d & Hd & Hc); exists d; split; try done.
  - by apply Qle_bool_iff.
  - by apply Qle_bool_iff.
Qed.

(** ** C6 *)

(** C6: with a store handle present, diverse retrieval draws its candidates
    from the [k * 3] nearest records ([k * 3 >= k]), keeps the MMR-selected
    ones among them in candidate order, and returns no record twice when the
    fetched candidates are distinct records. *)
Theorem diverse_pool_no_duplicates `{E : Env} (s : Session) (q : string)
  (k : option nat) :
  vector_store s = true ->
  NoDup (map rec_id (map fst (knn (store_of s) q (k_or_default k * 3)))) ->
  k_or_default k <= k_or_default k * 3 /\
  exists r, retrieve_diverse q k s = (s, Ok r) /\
    r = pick_selected 0
          (mmr q (knn (store_of s) q (k_or_default k * 3)) (k_or_default k))
          (knn (store_of s) q (k_or_default k * 3)) /\
    r `sublist_of` map fst (knn (store_of s) q (k_or_default k * 3)) /\
    NoDup (map rec_id r).
Proof.
  intros Hvs Hnd. split; [lia|].
  unfold retrieve_diverse. mred. rewrite Hvs.
  eexists; split; [reflexivity|]. split; [reflexivity|].
  pose proof (pick_selected_sublist 0
    (mmr q (knn (store_of s) q (k_or_default k * 3)) (k_or_default k))
    (knn (store_of s) q (k_or_default k * 3))) as Hsub.
  split; [done|].
  rewrite map_fmap_eq in Hnd |- *.
  eapply sublist_NoDup; [exact Hnd|]. by apply fmap_sublist.
Qed.

Lemma diverse_pool_no_duplicates_witness :
  let s := Demo.ready in
  let k := @k_or_default Demo.env None in
  let cands := @knn Demo.env (store_of s) "Python" (k * 3) in
  vector_store s = true /\ NoDup (map rec_id (map fst cands)) /\
  k <= k * 3 /\
  exists r, @retrieve_diverse Demo.env "Python" None s = (s, Ok r) /\
    r = pick_selected 0 (@mmr Demo.env "Python" cands k) cands /\
    r `sublist_of` map fst cands /\ NoDup (map rec_id r).
Proof.
  assert (Hnd : NoDup (map rec_id (map fst (@knn Demo.env (store_of Demo.ready)
                  "Python" (@k_or_default Demo.env None * 3))))).
  { vm_compute. repeat constructor; set_solver. }
  split; [reflexivity|]. split; [exact Hnd|].
  exact (@diverse_pool_no_duplicates Demo.env Demo.ready "Python" None
           eq_refl Hnd).
Defined.

(** ** C7 *)

(** C7: with [use_history] and a non-empty history, when the rephrasing call
    to the model raises, the search query is the original question, and
    [query] still returns normally (it never raises). *)
Theorem rephrase_failure_falls_back `{E : Env} (s : Session)
  (question : string) (retrieval_method : string) (k : option nat) (e : string) :
  chat_history s <> [] ->
  llm (rephrase_prompt (history_text (chat_history s)) question) = Raise e ->
  search_query_of question true (chat_history s) = question /\
  exists s' r, query question true retrieval_method k s = (s', Ok r).
Proof.
  intros Hh Hllm. split; [|apply query_returns].
  unfold search_query_of, rephrase_question.
  rewrite bool_decide_true by done. simpl.
  destruct (chat_history s) as [|m h]; [done|]. by rewrite Hllm.
Qed.

Lemma rephrase_failure_falls_back_witness :
  chat_history Demo.ready_with_history <> [] /\
  @llm Demo.env_down (rephrase_prompt (history_text (chat_history Demo.ready_with_history))
                    "What about performance?") = Raise "Connection refused" /\
  search_query_of (E := Demo.env_down) "What about performance?" true
    (chat_history Demo.ready_with_history) = "What about performance?" /\
  exists s' r, @query Demo.env_down "What about performance?" true "basic" None
                 Demo.ready_with_history = (s', Ok r).
Proof.
  split; [discriminate|]. split; [reflexivity|].
  apply (@rephrase_failure_falls_back Demo.env_down Demo.ready_with_history
           "What about performance?" "basic" None "Connection refused").
  - discriminate.
  - reflexivity.
Defined.

(** ** C8 *)

(** C8: [reset_knowledge_base] returns normally and leaves no store handle,
    no persisted directory, an empty history and zero statistics; a [query]
    right after it takes the no-knowledge-base path. *)
Theorem reset_then_query `{E : Env} (s : Session) (question : string)
  (use_history : bool) (retrieval_method : string) (k : option nat) :
  let s' := fst (reset_knowledge_base s) in
  snd (reset_knowledge_base s) = Ok tt /\
  vector_store s' = false /\ persisted s' = None /\ chat_history s' = [] /\
  stats s' = zero_stats /\
  query question use_history retrieval_method k s'
    = (set_stats (mkStats 1 0 0) s', Ok no_kb_response) /\
  success no_kb_response = false /\ sources no_kb_response = [].
Proof.
  destruct s as [p vs h st].
  unfold reset_knowledge_base, delete_vector_store, clear_history. mred.
  repeat split.
Qed.

(** ** C9 *)

Lemma chunk_id_of_tagged (t : string) (md : gmap string MVal) (i : nat) :
  chunk_id_of (mkDocument t (<["chunk_id" := MInt i]> md)) = Some (MInt i).
Proof. unfold chunk_id_of. simpl. apply lookup_insert_eq. Qed.

Lemma chunk_ids_imap {A} (f : nat -> A -> Document) (n : nat) (l : list A) :
  (forall i x, chunk_id_of (f i x) = Some (MInt (n + i))) ->
  map chunk_id_of (imap f l) = map (fun i => Some (MInt i)) (seq n (length l)).
Proof.
  revert f n. induction l as [|x l IH]; intros f n Hf; simpl; [done|].
  rewrite Hf, Nat.add_0_r. f_equal. apply IH.
  intros i y. unfold compose. rewrite Hf. do 2 f_equal. lia.
Qed.

Lemma page_contents_imap {A} (f : nat -> A -> Document) (g : A -> string)
  (l : list A) :
  (forall i x, page_content (f i x) = g x) ->
  map page_content (imap f l) = map g l.
Proof.
  revert f. induction l as [|x l IH]; intros f Hf; simpl; [done|].
  rewrite Hf. f_equal. apply IH. intros i y. apply Hf.
Qed.

(** C9 (as the code has it): [chunk_id] numbers the chunks of the whole batch
    in emission order, 0, 1, 2, ... across documents: the [i]-th chunk of
    the batch gets [chunk_id = i], and the chunks come in the splitter's
    order. *)
Theorem chunk_ids_follow_batch_order `{E : Env} (docs : list Document) :
  map chunk_id_of (chunk_documents docs)
    = map (fun i => Some (MInt i)) (seq 0 (length (chunk_documents docs))) /\
  map page_content (chunk_documents docs)
    = map page_content (split_documents docs).
Proof.
  unfold chunk_documents. rewrite length_imap. split.
  - apply chunk_ids_imap. intros i c. apply chunk_id_of_tagged.
  - by apply page_contents_imap.
Qed.

(** C9 refuted: as soon as the splitter yields a piece for each of two
    documents, the numbering of [chunk_documents] is not the per-document
    numbering. *)
Lemma chunk_positions_restart_counterexample :
  ~ exists E : Env,
      @split_text E (page_content Demo.doc_a) <> [] /\
      @split_text E (page_content Demo.doc_b) <> [] /\
      @chunk_documents E [Demo.doc_a; Demo.doc_b]
        = @per_document_positions E [Demo.doc_a; Demo.doc_b].
Proof.
  intros (E & H1 & H2 & Heq).
  apply (f_equal (map chunk_id_of)) in Heq.
  unfold chunk_documents, per_document_positions in Heq.
  remember (@split_text E (page_content Demo.doc_a)) as l1 eqn:Hl1.
  remember (@split_text E (page_content Demo.doc_b)) as l2 eqn:Hl2.
  assert (Hsplit : split_documents [Demo.doc_a; Demo.doc_b]
    = (map (fun t => mkDocument t (metadata Demo.doc_a)) l1
       ++ map (fun t => mkDocument t (metadata Demo.doc_b)) l2 ++ [])%list).
  { subst. reflexivity. }
  assert (Hbind : forall g : Document -> list Document,
    [Demo.doc_a; Demo.doc_b] ≫= g = (g Demo.doc_a ++ g Demo.doc_b ++ [])%list).
  { reflexivity. }
  rewrite Hsplit, Hbind, <- Hl1, <- Hl2, !map_app in Heq.
  rewrite (chunk_ids_imap _ 0) in Heq
    by (intros i c; apply chunk_id_of_tagged).
  rewrite !(chunk_ids_imap _ 0) in Heq
    by (intros i c; apply chunk_id_of_tagged).
  rewrite !length_app, !length_map in Heq. simpl in Heq.
  rewrite Nat.add_0_r, seq_app, map_app, app_nil_r in Heq.
  apply app_inv_head in Heq.
  destruct l2 as [|x l2]; [done|].
  simpl in Heq. injection Heq as Hn _.
  destruct l1; [done|]. discriminate.
Qed.

(** ** C2 *)

(** [record_turn], the history update of [query], keeps the history even
    and at most 10 long. *)
Lemma record_turn_bounded (q a : string) (h : list Msg) :
  Nat.even (length h) = true -> length h <= 10 ->
  Nat.even (length (record_turn q a h)) = true /\
  length (record_turn q a h) <= 10.
Proof.
  intros He Hl. unfold record_turn, last_n.
  assert (Hlen : length (h ++ [HumanMessage q; AIMessage a])%list = S (S (length h))).
  { rewrite length_app. simpl. lia. }
  case_bool_decide as Hc; rewrite ?length_drop, Hlen.
  - replace (S (S (length h)) - (S (S (length h)) - 10)) with 10 by lia. done.
  - simpl. split; [done|lia].
Qed.

(** C2 at a failing input: six fully drained [query_streaming] calls with
    [use_history] on a ready session leave 12 messages in the history,
    while six [query] calls leave 10. *)
Theorem streaming_history_unbounded :
  length (chat_history (fst (@run_ops Demo.env Demo.six_streams Demo.ready))) = 12 /\
  length (chat_history (fst (@run_ops Demo.env
     (repeat (OpQuery "Who created Python?" true "basic" None) 6) Demo.ready))) = 10.
Proof. split; vm_compute; reflexivity. Qed.

(** ** C10 *)

(** C10 at a failing input: a fully drained [query_streaming] call on a ready
    session appends the whole pair to the history but leaves the statistics
    at zero, while a [query] call counts itself. *)
Theorem streaming_skips_statistics :
  match @query_streaming Demo.env "Who created Python?" true None 100 Demo.ready with
  | (s', Ok (_, GenDone)) =>
      stats s' = zero_stats /\
      chat_history s' = [HumanMessage "Who created Python?";
                         AIMessage "Guido van Rossum created Python."]
  | _ => False
  end /\
  total_queries (stats (fst (@query Demo.env "Who created Python?" true "basic" None
                                Demo.ready))) = 1.
Proof. split; vm_compute; [split|]; reflexivity. Qed.

(** ** C1 *)

(** A computation that leaves the statistics alone and never drops the store
    handle. *)
Definition Tame {A} (m : M A) : Prop :=
  forall s, stats (fst (m s)) = stats s /\
            (vector_store s = true -> vector_store (fst (m s)) = true).

Lemma tame_ret {A} (a : A) : Tame (ret a).
Proof. intros s. simpl. auto. Qed.

Lemma tame_get : Tame get.
Proof. intros s. simpl. auto. Qed.

Lemma tame_bind {A B} (m : M A) (k : A -> M B) :
  Tame m -> (forall a, Tame (k a)) -> Tame (bind m k).
Proof.
  intros Hm Hk s. rewrite bind_unfold.
  destruct (Hm s) as [H1 H2]. destruct (m s) as [s1 [a|e]]; simpl in *.
  - destruct (Hk a s1) as [H3 H4]. split; [congruence|auto].
  - auto.
Qed.

Lemma tame_history (f : list Msg -> list Msg) :
  Tame (modify (fun s => set_chat_history (f (chat_history s)) s)).
Proof. intros [p vs h st]. simpl. auto. Qed.

Create HintDb tame.
#[local] Hint Resolve tame_ret tame_get tame_history : tame.

Ltac tame_step :=
  match goal with
  | |- Tame (bind _ _) => apply tame_bind; [|intros ?]
  | |- Tame (if ?b then _ else _) => destruct b
  | |- Tame (match ?x with _ => _ end) => destruct x
  | |- Tame _ => eauto with tame
  end.

Section Tameness.
Context `{E : Env}.

Lemma tame_load_vector_store : Tame load_vector_store.
Proof. intros [[p|] vs h st]; simpl; auto. Qed.

Lemma tame_require_store : Tame require_store.
Proof.
  intros [[p|] vs h st]; unfold require_store, load_vector_store;
    destruct vs; mred; simpl; auto.
Qed.

Lemma tame_create_vector_store (docs : list Document) :
  Tame (create_vector_store docs).
Proof. intros [p vs h st]. simpl. auto. Qed.

Lemma tame_add_documents (docs : list Document) : Tame (add_documents docs).
Proof.
  intros [[p|] vs h st]; unfold add_documents, load_vector_store,
    create_vector_store; destruct vs; mred; simpl; auto.
Qed.

#[local] Hint Resolve tame_load_vector_store tame_require_store
  tame_create_vector_store tame_add_documents : tame.

Lemma tame_retrieve (q : string) (k : option nat) : Tame (retrieve q k).
Proof. unfold retrieve, similarity_search. repeat tame_step. Qed.

#[local] Hint Resolve tame_retrieve : tame.

Lemma tame_gen_next (g : Gen) : Tame (gen_next g).
Proof.
  destruct g as [q uh k|q uh p f d|]; simpl; unfold gen_loop_next;
    repeat tame_step.
Qed.

#[local] Hint Resolve tame_gen_next : tame.

Lemma tame_consume (n : nat) (g : Gen) : Tame (consume n g).
Proof.
  revert g. induction n as [|n IH]; intros g; simpl; [auto with tame|].
  apply tame_bind; [auto with tame|]. intros [[it|] g']; [|auto with tame].
  apply tame_bind; auto with tame.
Qed.

#[local] Hint Resolve tame_consume : tame.

Lemma tame_initialize (d : string) : Tame (initialize_knowledge_base d).
Proof. unfold initialize_knowledge_base. repeat tame_step. Qed.

Lemma tame_clear_history : Tame clear_history.
Proof. intros [p vs h st]. simpl. auto. Qed.

End Tameness.

Section Average.
Context `{E : Env}.

Lemma query_effect (q : string) (uh : bool) (m : string) (k : option nat)
  (s : Session) :
  exists s' r, query q uh m k s = (s', Ok r) /\
    total_queries (stats s') = S (total_queries (stats s)) /\
    ((vector_store s = false /\ vector_store s' = false /\
      average_context_length (stats s') = average_context_length (stats s) /\
      context r = None) \/
     (vector_store s' = true /\ exists c, context r = Some c /\
        average_context_length (stats s')
        = running_average (average_context_length (stats s))
            (S (total_queries (stats s))) (str_len c))).
Proof.
  destruct s as [p vs h st]. unfold query, load_vector_store. mred.
  destruct vs; [|destruct p as [store|]; mred].
  3: { eexists _, _. split; [reflexivity|]. simpl. split; [reflexivity|]. left. repeat split. }
  all: match goal with
       | |- context [retrieve_by ?mm ?sq ?kk ?s1] =>
           destruct (retrieve_by_ready mm sq kk s1) as [r ->]; [done|]
       end.
  all: mred; destruct (bool_decide _), uh; mred;
    eexists _, _; split; try reflexivity; simpl;
    split; try reflexivity; right; split; try reflexivity;
    eexists; split; reflexivity.
Qed.

(** The invariant behind the running mean: [average * total_queries] is the
    accumulated length, and without a store handle nothing was accumulated. *)
Definition avg_inv (s : Session) (acc : Q) : Prop :=
  (average_context_length (stats s) * QofN (total_queries (stats s)) == acc)%Q /\
  (vector_store s = false -> average_context_length (stats s) == 0)%Q.

Lemma QofN_add (a b : nat) : (QofN (a + b) == QofN a + QofN b)%Q.
Proof. unfold QofN. rewrite Nat2Z.inj_add, inject_Z_plus. reflexivity. Qed.

Lemma QofN_S_nonzero (n : nat) : ~ (QofN (S n) == 0)%Q.
Proof. unfold QofN, Qeq. simpl. lia. Qed.

Lemma tame_inv {A} (m : M A) (s : Session) (acc : Q) :
  Tame m -> avg_inv s acc -> avg_inv (fst (m s)) acc.
Proof.
  intros Hm [H1 H2]. destruct (Hm s) as [Hst Hvs]. unfold avg_inv.
  rewrite Hst. split; [done|].
  intros Hf. apply H2. destruct (vector_store s); [|done].
  rewrite Hvs in Hf; done.
Qed.

Lemma avg_inv_eq (s : Session) (acc acc' : Q) :
  (acc == acc')%Q -> avg_inv s acc -> avg_inv s acc'.
Proof. intros Heq [H1 H2]. split; [|done]. rewrite H1. exact Heq. Qed.

Lemma exec_op_inv (o : Op) (s : Session) (acc : Q) :
  is_reset o = false -> avg_inv s acc ->
  avg_inv (fst (exec_op o s)) (acc + QofN (observed_length (snd (exec_op o s))))
  /\ total_queries (stats (fst (exec_op o s)))
     = total_queries (stats s) + is_query o.
Proof.
  intros Hreset Hinv.
  assert (Htame : forall {A} (c : M A) (f : A -> Reply), Tame c ->
    (forall a, observed_length (Ok (f a)) = 0) ->
    avg_inv (fst (bind c (fun a => ret (f a)) s))
      (acc + QofN (observed_length (snd (bind c (fun a => ret (f a)) s)))) /\
    total_queries (stats (fst (bind c (fun a => ret (f a)) s)))
      = total_queries (stats s) + 0).
  { intros A c f Hc Hf. rewrite bind_unfold.
    pose proof (tame_inv c s acc Hc Hinv) as Hi. destruct (Hc s) as [Hst _].
    destruct (c s) as [s1 [a|e]]; simpl in *; rewrite ?Hf, Hst;
      (split; [|lia]); eapply avg_inv_eq; try exact Hi;
      unfold QofN; simpl; ring. }
  destruct o as [q uh m k|q uh k n|d| |]; simpl in Hreset; try discriminate.
  - destruct (query_effect q uh m k s)
      as (s' & r & Hq & Ht & [(Hvs & Hvs' & Ha & Hc)|(Hvs' & c & Hc & Ha)]);
      simpl; rewrite bind_unfold, Hq; simpl; rewrite Ht; (split; [|lia]);
      destruct Hinv as [H1 H2].
    + rewrite Hc. split; [|rewrite Ha; auto].
      rewrite Ha. pose proof (H2 Hvs) as H0. rewrite H0 in H1 |- *.
      unfold QofN at 2. simpl. rewrite <- H1. ring.
    + rewrite Hc. split; [|congruence].
      rewrite Ha. unfold running_average.
      replace (S (total_queries (stats s)) - 1) with (total_queries (stats s)) by lia.
      rewrite Ht, <- H1. field. apply QofN_S_nonzero.
  - apply (Htame _ (query_streaming q uh k n) (fun r => RStream (fst r))).
    + apply tame_consume.
    + done.
  - apply (Htame _ (initialize_knowledge_base d) RInit); [apply tame_initialize|done].
  - apply (Htame _ clear_history (fun _ => RUnit)); [apply tame_clear_history|done].
Qed.

Lemma run_ops_inv (ops : list Op) : forall (s : Session) (acc : Q),
  Forall (fun o => is_reset o = false) ops -> avg_inv s acc ->
  avg_inv (fst (run_ops ops s)) (acc + QofN (observed_total (snd (run_ops ops s)))) /\
  total_queries (stats (fst (run_ops ops s)))
    = total_queries (stats s) + sum_list (map is_query ops).
Proof.
  induction ops as [|o ops IH]; intros s acc Hops Hinv; simpl.
  - split; [|lia]. destruct Hinv as [H1 H2]. split; [|done].
    rewrite H1. unfold observed_total, QofN. simpl. ring.
  - inversion Hops as [|? ? Ho Hops']; subst.
    destruct (exec_op_inv o s acc Ho Hinv) as [Hi1 Ht1].
    destruct (exec_op o s) as [s1 r] eqn:Hex. simpl in Hi1, Ht1.
    destruct (IH s1 _ Hops' Hi1) as [Hi2 Ht2].
    destruct (run_ops ops s1) as [s2 rs] eqn:Hrun. simpl in *.
    split; [|lia].
    destruct Hi2 as [H1 H2]. split; [|done].
    rewrite H1. unfold observed_total. simpl. rewrite QofN_add. ring.
Qed.

End Average.

(** C1 (as the code has it): from zero statistics (a new session, or right
    after [reset_knowledge_base]) and with no reset in between, every [query]
    call counts in [total_queries], including the ones that return the
    no-knowledge-base answer, and [average_context_length * total_queries]
    is the sum of the context lengths of the answered calls; so the average
    is the exact mean of the observed lengths when every query observed one.
    [query_streaming] calls are counted by neither. *)
Theorem average_counts_every_query `{E : Env} (ops : list Op) (s : Session) :
  stats s = zero_stats ->
  Forall (fun o => is_reset o = false) ops ->
  total_queries (stats (fst (run_ops ops s))) = sum_list (map is_query ops) /\
  (average_context_length (stats (fst (run_ops ops s)))
     * QofN (total_queries (stats (fst (run_ops ops s))))
   == QofN (observed_total (snd (run_ops ops s))))%Q /\
  (observed_queries (snd (run_ops ops s))
     = total_queries (stats (fst (run_ops ops s))) ->
   (0 < total_queries (stats (fst (run_ops ops s))))%nat ->
   average_context_length (stats (fst (run_ops ops s)))
   == QofN (observed_total (snd (run_ops ops s)))
      / QofN (observed_queries (snd (run_ops ops s))))%Q.
Proof.
  intros Hst Hops.
  assert (Hinv : avg_inv s 0).
  { unfold avg_inv. rewrite Hst. simpl. split; [reflexivity|intros _; reflexivity]. }
  destruct (run_ops_inv ops s 0 Hops Hinv) as [[H1 _] Ht].
  rewrite Hst in Ht. simpl in Ht.
  assert (Hsum : (average_context_length (stats (fst (run_ops ops s)))
     * QofN (total_queries (stats (fst (run_ops ops s))))
     == QofN (observed_total (snd (run_ops ops s))))%Q).
  { rewrite H1. ring. }
  split; [done|]. split; [done|].
  intros Hcount Hpos. rewrite Hcount, <- Hsum.
  destruct (total_queries (stats (fst (run_ops ops s)))) as [|t]; [lia|].
  field. apply QofN_S_nonzero.
Qed.

(** The scenario of the spec: a query on an uninitialized session, the
    ingestion of two documents, then a query that retrieves one of them. *)
Definition no_kb_then_answer : list Op :=
  [OpQuery "Who created Python?" true "basic" None;
   OpInit "data/raw";
   OpQuery "Who created Python?" true "basic" (Some 1)].

Lemma average_counts_every_query_witness :
  stats Demo.fresh = zero_stats /\
  Forall (fun o => is_reset o = false) no_kb_then_answer /\
  total_queries (stats (fst (@run_ops Demo.env no_kb_then_answer Demo.fresh))) = 2 /\
  (average_context_length (stats (fst (@run_ops Demo.env no_kb_then_answer Demo.fresh)))
     * QofN (total_queries (stats (fst (@run_ops Demo.env no_kb_then_answer Demo.fresh))))
   == QofN (observed_total (snd (@run_ops Demo.env no_kb_then_answer Demo.fresh))))%Q.
Proof.
  assert (Hops : Forall (fun o => is_reset o = false) no_kb_then_answer).
  { repeat constructor. }
  destruct (@average_counts_every_query Demo.env no_kb_then_answer Demo.fresh
              eq_refl Hops) as (Ht & Hsum & _).
  split; [reflexivity|]. split; [exact Hops|]. split; [|exact Hsum].
  rewrite Ht. reflexivity.
Defined.

(** C1 refuted: after a no-knowledge-base query and one answered query whose
    context has 80 characters, [average_context_length] is 40, not the mean
    80 of the one observed length: the divisor counts the unanswered query. *)
Lemma average_context_length_counterexample :
  observed_queries (snd (@run_ops Demo.env no_kb_then_answer Demo.fresh)) = 1 /\
  observed_total (snd (@run_ops Demo.env no_kb_then_answer Demo.fresh)) = 80 /\
  total_queries (stats (fst (@run_ops Demo.env no_kb_then_answer Demo.fresh))) = 2 /\
  (average_context_length (stats (fst (@run_ops Demo.env no_kb_then_answer Demo.fresh)))
     == 40)%Q /\
  ~ (average_context_length (stats (fst (@run_ops Demo.env no_kb_then_answer Demo.fresh)))
     == QofN (observed_total (snd (@run_ops Demo.env no_kb_then_answer Demo.fresh)))
        / QofN (observed_queries (snd (@run_ops Demo.env no_kb_then_answer Demo.fresh))))%Q.
Proof.
  vm_compute. split; [reflexivity|]. split; [reflexivity|].
  split; [reflexivity|]. split; [reflexivity|]. discriminate.
Qed.

(** * Further properties of the code *)

(** ** Shared lemmas *)

Lemma rec_docs_imap (f : nat -> Document -> Rec) (l : list Document) :
  (forall i d, rec_doc (f i d) = d) -> map rec_doc (imap f l) = l.
Proof.
  revert f. induction l as [|x l IH]; intros f Hf; simpl; [done|].
  rewrite Hf. f_equal. apply IH. intros i d. apply Hf.
Qed.

Lemma rec_docs_new_records (base : nat) (docs : list Document) :
  map rec_doc (new_records base docs) = docs.
Proof. apply rec_docs_imap. done. Qed.

Lemma remove_dups_bounds {A} `{EqDecision A} (f : Document -> A)
  (c : Document) (cs : list Document) :
  1 <= length (remove_dups (map f (c :: cs))) <= length (c :: cs).
Proof.
  split.
  - assert (Hin : f c ∈ remove_dups (map f (c :: cs))).
    { apply elem_of_remove_dups. apply elem_of_cons. by left. }
    destruct (remove_dups (map f (c :: cs))); [inversion Hin|simpl; lia].
  - rewrite <- (length_map f (c :: cs)).
    generalize (map f (c :: cs)). intros l.
    induction l as [|x l IH]; simpl; [lia|].
    case_decide; simpl; lia.
Qed.

Section StoreFacts.
Context `{E : Env}.

Lemma initialize_effect (d : string) (s : Session) :
  match process_documents d with
  | [] => initialize_knowledge_base d s
          = (s, Ok (mkInitResult false "No documents found to process" 0 None))
  | chunks =>
      initialize_knowledge_base d s
      = (set_vector_store true
           (set_persisted (Some (store_of s ++ new_records (length (store_of s)) chunks)%list) s),
         Ok (mkInitResult true "Knowledge base initialized successfully"
               (length chunks)
               (Some (length (remove_dups (map (fun c => metadata c !! "filename") chunks))))))
  end.
Proof.
  unfold initialize_knowledge_base.
  destruct (process_documents d) as [|c cs]; [reflexivity|].
  destruct s as [[p|] [|] h st]; unfold add_documents, create_vector_store,
    load_vector_store; mred; reflexivity.
Qed.

Lemma initialize_store (d : string) (s : Session) :
  map rec_doc (store_of (fst (initialize_knowledge_base d s)))
  = (map rec_doc (store_of s) ++ process_documents d)%list.
Proof.
  pose proof (initialize_effect d s) as H.
  destruct (process_documents d) as [|c cs]; rewrite H; simpl.
  - by rewrite app_nil_r.
  - unfold store_of at 1. simpl. rewrite map_app, rec_docs_new_records. done.
Qed.

End StoreFacts.

(** ** The vector store manager *)

(** X1: [similarity_search] and [similarity_search_with_score] raise the
    [ValueError] exactly when there is neither a store handle nor a persisted
    directory, and then leave the session as it was; otherwise they leave a
    store handle in place and search the persisted records. *)
Theorem similarity_search_needs_store `{E : Env} (s : Session) (q : string)
  (k : nat) :
  similarity_search q k s =
    (if vector_store s || bool_decide (persisted s <> None)
     then (set_vector_store true s, Ok (map fst (knn (store_of s) q k)))
     else (s, Raise "No vector store available. Create one first.")) /\
  similarity_search_with_score q k s =
    (if vector_store s || bool_decide (persisted s <> None)
     then (set_vector_store true s, Ok (knn (store_of s) q k))
     else (s, Raise "No vector store available. Create one first.")).
Proof.
  destruct s as [[p|] [|] h st]; unfold similarity_search,
    similarity_search_with_score, require_store, load_vector_store; mred;
    split; reflexivity.
Qed.

(** X2: [add_documents] has the effect of [create_vector_store] from every
    session: it returns normally, a store handle is set, and the documents
    are stored after the records already in the collection, which are kept;
    the history and the statistics are untouched. *)
Theorem add_documents_appends `{E : Env} (docs : list Document) (s : Session) :
  add_documents docs s = create_vector_store docs s /\
  snd (add_documents docs s) = Ok tt /\
  vector_store (fst (add_documents docs s)) = true /\
  map rec_doc (store_of (fst (add_documents docs s)))
    = (map rec_doc (store_of s) ++ docs)%list /\
  chat_history (fst (add_documents docs s)) = chat_history s /\
  stats (fst (add_documents docs s)) = stats s.
Proof.
  assert (Heq : add_documents docs s = create_vector_store docs s).
  { destruct s as [[p|] [|] h st]; unfold add_documents, create_vector_store,
      load_vector_store; mred; reflexivity. }
  rewrite Heq. destruct s as [p vs h st]. unfold create_vector_store. mred.
  repeat split; try reflexivity. simpl.
  unfold store_of at 1. simpl. by rewrite map_app, rec_docs_new_records.
Qed.

(** ** Knowledge base initialization *)

(** X3: [initialize_knowledge_base] with no chunk to process returns the
    failure dictionary and changes nothing (it does not even load the
    store); otherwise it returns [success = True] with the number of chunks
    and a number of documents between 1 and the number of chunks, leaves a
    store handle, and stores the chunks after the records already in the
    collection, keeping the history and the statistics. *)
Theorem initialize_knowledge_base_outcome `{E : Env} (d : string) (s : Session) :
  match process_documents d with
  | [] => initialize_knowledge_base d s
          = (s, Ok (mkInitResult false "No documents found to process" 0 None))
  | chunks =>
      exists n,
        snd (initialize_knowledge_base d s)
          = Ok (mkInitResult true "Knowledge base initialized successfully"
                  (length chunks) (Some n)) /\
        1 <= n <= length chunks /\
        vector_store (fst (initialize_knowledge_base d s)) = true /\
        map rec_doc (store_of (fst (initialize_knowledge_base d s)))
          = (map rec_doc (store_of s) ++ chunks)%list /\
        chat_history (fst (initialize_knowledge_base d s)) = chat_history s /\
        stats (fst (initialize_knowledge_base d s)) = stats s
  end.
Proof.
  pose proof (initialize_store d s) as Hst.
  pose proof (initialize_effect d s) as H.
  destruct (process_documents d) as [|c cs]; [exact H|].
  rewrite H in Hst |- *. eexists. split; [reflexivity|].
  split; [apply remove_dups_bounds|].
  destruct s; repeat split. exact Hst.
Qed.

(** X4: [initialize_knowledge_base] is not idempotent: running it twice on
    the same directory stores every chunk twice, after the records already
    in the collection. *)
Theorem initialize_twice_duplicates `{E : Env} (d : string) (s : Session) :
  map rec_doc (store_of (fst (initialize_knowledge_base d
                                (fst (initialize_knowledge_base d s)))))
  = (map rec_doc (store_of s) ++ process_documents d ++ process_documents d)%list.
Proof. rewrite !initialize_store. by rewrite app_assoc. Qed.

(** ** Retrieval without a loaded store *)

(** X5: on a session with no store handle and no persisted directory, the
    first [next()] on the generator of [query_streaming] raises the
    [ValueError] of the vector store manager and leaves the session as it
    was (where [query] returns its failure dictionary). *)
Theorem query_streaming_without_knowledge_base `{E : Env} (s : Session)
  (question : string) (use_history : bool) (k : option nat) (n : nat) :
  vector_store s = false -> persisted s = None ->
  query_streaming question use_history k (S n) s
    = (s, Raise "No vector store available. Create one first.").
Proof.
  destruct s as [p vs h st]; simpl; intros -> ->.
  unfold query_streaming, retrieve, similarity_search, require_store,
    load_vector_store. simpl. mred. reflexivity.
Qed.

Lemma query_streaming_without_knowledge_base_witness :
  vector_store Demo.fresh = false /\ persisted Demo.fresh = None /\
  @query_streaming Demo.env "Who created Python?" true None 1 Demo.fresh
    = (Demo.fresh, Raise "No vector store available. Create one first.").
Proof.
  split; [reflexivity|]. split; [reflexivity|].
  apply (@query_streaming_without_knowledge_base Demo.env Demo.fresh
           "Who created Python?" true None 0); reflexivity.
Defined.

(** X6: without a store handle, [retrieve_diverse] and
    [retrieve_with_metadata_filter] return [[]] and do not load the persisted
    store, whereas [retrieve] loads it and searches it. *)
Theorem diverse_and_filter_skip_loading `{E : Env} (s : Session) (q : string)
  (k : option nat) (key : string) (value : MVal) :
  vector_store s = false ->
  retrieve_diverse q k s = (s, Ok []) /\
  retrieve_with_metadata_filter q key value k s = (s, Ok []) /\
  (persisted s <> None ->
   retrieve q k s = (set_vector_store true s,
                     Ok (map fst (knn (store_of s) q (k_or_default k))))).
Proof.
  destruct s as [[p|] vs h st]; simpl; intros ->;
    unfold retrieve_diverse, retrieve_with_metadata_filter, retrieve,
      similarity_search, require_store, load_vector_store; mred;
    (split; [reflexivity|]); (split; [reflexivity|]); intros Hp; [reflexivity|].
  by destruct Hp.
Qed.

Lemma diverse_and_filter_skip_loading_witness :
  vector_store Demo2.stored_unloaded = false /\
  @retrieve_diverse Demo.env "Python" None Demo2.stored_unloaded
    = (Demo2.stored_unloaded, Ok []) /\
  @retrieve_with_metadata_filter Demo.env "Python" "filename" (MStr "a.txt") None
    Demo2.stored_unloaded = (Demo2.stored_unloaded, Ok []) /\
  (persisted Demo2.stored_unloaded <> None ->
   @retrieve Demo.env "Python" None Demo2.stored_unloaded
   = (set_vector_store true Demo2.stored_unloaded,
      Ok (map fst (@knn Demo.env (store_of Demo2.stored_unloaded) "Python"
                     (@k_or_default Demo.env None))))).
Proof.
  split; [reflexivity|].
  apply (@diverse_and_filter_skip_loading Demo.env Demo2.stored_unloaded
           "Python" None "filename" (MStr "a.txt")).
  reflexivity.
Defined.



(** ** Strings *)

Lemma str_app_cons (x : Ascii.ascii) (a b : string) :
  String x a +:+ b = String x (a +:+ b).
Proof. reflexivity. Qed.

Lemma str_app_assoc (a b c : string) : (a +:+ b) +:+ c = a +:+ (b +:+ c).
Proof.
  induction a as [|x a IH]; [reflexivity|]. by rewrite !str_app_cons, IH.
Qed.

Lemma str_app_nil_r (a : string) : a +:+ "" = a.
Proof. induction a as [|x a IH]; [reflexivity|]. by rewrite str_app_cons, IH. Qed.

Lemma str_take_len (n : nat) (s : string) : str_len (str_take n s) <= n.
Proof.
  unfold str_take, str_len. revert n.
  induction s as [|c s IH]; intros [|n]; simpl; try lia.
  specialize (IH n). lia.
Qed.

Lemma join_nonempty (sep p : string) (ps : list string) :
  p <> "" -> join sep (p :: ps) <> "".
Proof.
  intros Hp. destruct ps as [|q ps]; [done|].
  change (join sep (p :: q :: ps)) with (p +:+ sep +:+ join sep (q :: ps)).
  destruct p; [done|]. discriminate.
Qed.

Lemma join_infix (sep : string) (parts : list string) (p : string) :
  p ∈ parts -> exists pre post, join sep parts = pre +:+ p +:+ post.
Proof.
  induction parts as [|x ps IH]; intros Hp; [inversion Hp|].
  apply elem_of_cons in Hp as [->|Hp].
  - destruct ps as [|y ps].
    + exists "", "". cbn [join]. by rewrite str_app_nil_r.
    + exists "", (sep +:+ join sep (y :: ps)). reflexivity.
  - destruct (IH Hp) as (pre & post & Heq).
    destruct ps as [|y ps]; [inversion Hp|].
    exists (x +:+ sep +:+ pre), post.
    change (join sep (x :: y :: ps)) with (x +:+ sep +:+ join sep (y :: ps)).
    rewrite Heq, !str_app_assoc. reflexivity.
Qed.

Lemma context_part_content (i : nat) (d : Document) :
  exists pre, context_part i d = pre +:+ page_content d +:+ nl.
Proof.
  exists ("[Document " +:+ pretty (N.of_nat i) +:+ "] (Source: "
    +:+ mval_str (meta_get d "filename" (MStr "Unknown source"))
    +:+ ", Page: " +:+ mval_str (meta_get d "page" (MStr "N/A")) +:+ ")" +:+ nl).
  unfold context_part. rewrite !str_app_assoc. reflexivity.
Qed.

Lemma context_parts_elem (i : nat) (ds : list Document) (d : Document) :
  d ∈ ds -> exists j, context_part j d ∈ context_parts i ds.
Proof.
  revert i. induction ds as [|x ds IH]; intros i Hd; [inversion Hd|]. simpl.
  apply elem_of_cons in Hd as [->|Hd].
  - exists i. apply elem_of_cons. by left.
  - destruct (IH (S i) Hd) as [j Hj]. exists j. apply elem_of_cons. by right.
Qed.

Lemma context_string_empty (docs : list Rec) :
  get_context_string docs = "" <-> docs = [].
Proof.
  destruct docs as [|r docs]; [done|]. split; [|discriminate].
  intros H. exfalso. revert H. unfold get_context_string.
  apply join_nonempty. unfold context_part. discriminate.
Qed.

(** ** The context string *)

(** X8: the context string is empty exactly when no document was
    retrieved, and the full text of every retrieved document appears in it
    verbatim (only the previews of [query]'s sources are cut). *)
Theorem context_string_contents (docs : list Rec) :
  (get_context_string docs = "" <-> docs = []) /\
  Forall (fun d => exists pre post,
            get_context_string docs = pre +:+ page_content (rec_doc d) +:+ post) docs.
Proof.
  split; [apply context_string_empty|].
  apply Forall_forall. intros d Hd.
  destruct (context_parts_elem 1 (map rec_doc docs) (rec_doc d)) as [j Hj].
  { rewrite map_fmap_eq. apply list_elem_of_fmap. eauto. }
  destruct (join_infix (nl +:+ "---" +:+ nl) _ _ Hj) as (pre & post & Heq).
  destruct (context_part_content j (rec_doc d)) as [pre' Hp].
  exists (pre +:+ pre'), (nl +:+ post). unfold get_context_string.
  rewrite Heq, Hp, !str_app_assoc. reflexivity.
Qed.

(** ** What a [query] call returns and changes *)

Lemma sources_previews (docs : list Rec) :
  Forall (fun src => exists pre, content_preview src = pre +:+ "..." /\
                                 str_len pre <= 150) (map source_of docs).
Proof.
  apply Forall_forall. intros src Hs. rewrite map_fmap_eq in Hs.
  apply list_elem_of_fmap in Hs as (d & -> & _).
  exists (str_take 150 (page_content (rec_doc d))). split; [reflexivity|].
  apply str_take_len.
Qed.

Lemma map_nil_iff {A B} (f : A -> B) (l : list A) : map f l = [] <-> l = [].
Proof. destruct l; simpl; split; congruence. Qed.

Lemma query_outcome `{E : Env} (q : string) (uh : bool) (m : string)
  (k : option nat) (s : Session) :
  exists s' r, query q uh m k s = (s', Ok r) /\
    total_queries (stats s') = S (total_queries (stats s)) /\
    successful_retrievals (stats s')
      = successful_retrievals (stats s)
        + (if bool_decide (sources r = []) then 0 else 1) /\
    ((r = no_kb_response /\ chat_history s' = chat_history s) \/
     (success r = true /\ context r <> None /\
      retrieved_docs r = Some (length (sources r)) /\
      chat_history s' = (if uh then record_turn q (answer r) (chat_history s)
                         else chat_history s))) /\
    Forall (fun src => exists pre, content_preview src = pre +:+ "..." /\
                                   str_len pre <= 150) (sources r).
Proof.
  destruct s as [p vs h st]. unfold query, load_vector_store. mred.
  destruct vs; [|destruct p as [store|]; mred].
  3: { eexists _, _. split; [reflexivity|]. simpl.
       split; [reflexivity|]. split; [lia|]. split; [left; split; reflexivity|].
       constructor. }
  all: match goal with
       | |- context [retrieve_by ?mm ?sq ?kk ?s1] =>
           destruct (retrieve_by_ready mm sq kk s1) as [r ->]; [done|]
       end.
  all: mred; destruct (bool_decide (r <> [])) eqn:Hb; destruct uh; mred;
    eexists _, _; (split; [reflexivity|]); simpl;
    (split; [reflexivity|]);
    (split; [apply bool_decide_eq_true in Hb || apply bool_decide_eq_false in Hb;
             case_bool_decide as Hs; rewrite ?map_nil_iff in Hs;
             [tauto || lia|tauto || lia]|]);
    (split; [right; rewrite length_map; repeat split; discriminate|]);
    apply sources_previews.
Qed.

(** ** The generator of [query_streaming] *)

Section Streaming.
Context `{E : Env}.

Lemma consume_loop (q : string) (uh : bool) (d : list Rec) :
  forall (p : list string) (n : nat) (f : string) (s : Session),
  match consume n (GenLoop q uh p f d) s with
  | (s', Ok (items, GenDone)) =>
      stats s' = stats s /\
      chat_history s' = (chat_history s ++
        (if uh then [HumanMessage q;
                     AIMessage (foldl (fun acc c => acc +:+ c) f (map chunk items))]
         else []))%list
  | (s', Ok _) => s' = s
  | (_, Raise _) => False
  end.
Proof.
  induction p as [|c p IH]; intros [|n] f s; try reflexivity.
  - destruct s as [pe vs h st], uh; simpl; mred; simpl; split; try reflexivity.
    by rewrite app_nil_r.
  - simpl. mred. specialize (IH n (f +:+ c) s).
    destruct (consume n (GenLoop q uh p (f +:+ c) d) s) as [s' [[items g]|e]];
      simpl; [|done].
    destruct g; simpl; done.
Qed.

Lemma stream_effect (q : string) (uh : bool) (k : option nat) (n : nat)
  (s : Session) :
  match query_streaming q uh k n s with
  | (s', Ok (items, GenDone)) =>
      stats s' = stats s /\
      chat_history s' = (chat_history s ++
        (if uh then [HumanMessage q; AIMessage (streamed_text items)] else []))%list
  | (s', _) => stats s' = stats s /\ chat_history s' = chat_history s
  end.
Proof.
  destruct n as [|n]; [destruct s; split; reflexivity|].
  destruct s as [[store|] vs h st].
  - set (s1 := mkSession (Some store) true h st).
    set (docs := map fst (knn store (search_query_of q uh h) (k_or_default k))).
    assert (Heq : query_streaming q uh k (S n) (mkSession (Some store) vs h st)
      = consume (S n) (GenLoop q uh (generate_answer_streaming q
          (get_context_string docs) (if uh then h else [])) "" docs) s1).
    { destruct vs; reflexivity. }
    rewrite Heq.
    pose proof (consume_loop q uh docs (generate_answer_streaming q
          (get_context_string docs) (if uh then h else [])) (S n) "" s1) as H.
    destruct (consume (S n) _ s1) as [s' [[items g]|e]]; [|done].
    destruct g; try (subst; split; reflexivity). exact H.
  - destruct vs.
    + set (s1 := mkSession None true h st).
      set (docs := map fst (knn [] (search_query_of q uh h) (k_or_default k))).
      assert (Heq : query_streaming q uh k (S n) s1
        = consume (S n) (GenLoop q uh (generate_answer_streaming q
            (get_context_string docs) (if uh then h else [])) "" docs) s1).
      { reflexivity. }
      rewrite Heq.
      pose proof (consume_loop q uh docs (generate_answer_streaming q
            (get_context_string docs) (if uh then h else [])) (S n) "" s1) as H.
      destruct (consume (S n) _ s1) as [s' [[items g]|e]]; [|done].
      destruct g; try (subst; split; reflexivity). exact H.
    + unfold query_streaming, retrieve, similarity_search, require_store,
        load_vector_store. simpl. mred. split; reflexivity.
Qed.

End Streaming.

(** ** Invariants of a session *)

Lemma pairs_app_pair (q a : string) : forall n (h : list Msg), length h <= n ->
  pairs (h ++ [HumanMessage q; AIMessage a])%list = pairs h.
Proof.
  induction n as [|n IH]; intros h Hl.
  - destruct h; [reflexivity|simpl in Hl; lia].
  - destruct h as [|[x|x] [|[y|y] h]]; try reflexivity.
    simpl in Hl |- *. apply IH. lia.
Qed.

Lemma pairs_drop : forall n (m : nat) (h : list Msg), length h <= n ->
  pairs h = true -> Nat.even m = true -> pairs (drop m h) = true.
Proof.
  induction n as [|n IH]; intros m h Hl Hp He.
  - destruct h; [by rewrite drop_nil|simpl in Hl; lia].
  - destruct m as [|[|m]]; [done|done|].
    destruct h as [|[x|x] [|[y|y] h]]; try done.
    simpl in Hl, Hp |- *. apply IH; [lia|done|].
    by rewrite Nat.even_succ_succ in He.
Qed.

Lemma pairs_even : forall n (h : list Msg), length h <= n ->
  pairs h = true -> Nat.even (length h) = true.
Proof.
  induction n as [|n IH]; intros h Hl Hp.
  - destruct h; [reflexivity|simpl in Hl; lia].
  - destruct h as [|[x|x] [|[y|y] h]]; try done.
    simpl in Hl, Hp |- *. apply IH; [lia|done].
Qed.

Lemma pairs_record_turn (q a : string) (h : list Msg) :
  pairs h = true -> pairs (record_turn q a h) = true.
Proof.
  intros Hp. unfold record_turn, last_n.
  assert (Hp' : pairs (h ++ [HumanMessage q; AIMessage a])%list = true).
  { by rewrite (pairs_app_pair q a (length h)). }
  case_bool_decide; [|done].
  apply (pairs_drop (length (h ++ [HumanMessage q; AIMessage a])%list)); [done|done|].
  pose proof (pairs_even _ _ (le_n _) Hp') as He.
  match goal with H : 10 < _ |- _ => rename H into Hc end.
  rewrite length_app in Hc, He |- *. simpl in Hc, He |- *.
  apply Nat.even_spec in He as [j Hj]. apply Nat.even_spec.
  exists (j - 5). lia.
Qed.

Lemma record_turn_le10 (q a : string) (h : list Msg) :
  length h <= 10 -> length (record_turn q a h) <= 10.
Proof.
  intros Hl. unfold record_turn, last_n.
  case_bool_decide as Hc; rewrite ?length_drop; lia.
Qed.

Lemma record_turn_last (q a : string) (h : list Msg) :
  last (record_turn q a h) = Some (AIMessage a).
Proof.
  unfold record_turn, last_n.
  assert (Hl : last (h ++ [HumanMessage q; AIMessage a])%list = Some (AIMessage a)).
  { change [HumanMessage q; AIMessage a] with ([HumanMessage q] ++ [AIMessage a])%list.
    by rewrite app_assoc, last_snoc. }
  case_bool_decide as Hc; [|done].
  rewrite length_app in Hc |- *. simpl in Hc |- *.
  rewrite drop_app_le by lia.
  change [HumanMessage q; AIMessage a] with ([HumanMessage q] ++ [AIMessage a])%list.
  by rewrite app_assoc, last_snoc.
Qed.

Section SessionInvariants.
Context `{E : Env}.

Lemma run_ops_preserve (P : Session -> Prop) (R : Op -> Prop)
  (Hstep : forall o s, R o -> P s -> P (fst (exec_op o s))) :
  forall ops s, Forall R ops -> P s -> P (fst (run_ops ops s)).
Proof.
  induction ops as [|o ops IH]; intros s Hops Hs; simpl; [done|].
  inversion Hops as [|? ? Ho Hops']; subst.
  pose proof (Hstep o s Ho Hs) as H1.
  destruct (exec_op o s) as [s1 r]. simpl in H1.
  specialize (IH s1 Hops' H1). destruct (run_ops ops s1). exact IH.
Qed.

Lemma exec_op_bind_fst {A} (m : M A) (f : A -> Reply) (s : Session) :
  fst (bind m (fun a => ret (f a)) s) = fst (m s).
Proof. rewrite bind_unfold. destruct (m s) as [s' [a|e]]; reflexivity. Qed.

(** The history after one call: unchanged, cleared, updated by [query], or
    with a pair appended by a drained [query_streaming]. *)
Lemma exec_op_history (o : Op) (s : Session) :
  chat_history (fst (exec_op o s)) = chat_history s \/
  chat_history (fst (exec_op o s)) = [] \/
  (exists q a, chat_history (fst (exec_op o s)) = record_turn q a (chat_history s)) \/
  (streams_history o = true /\ exists q a,
     chat_history (fst (exec_op o s))
     = (chat_history s ++ [HumanMessage q; AIMessage a])%list).
Proof.
  destruct o as [q uh m k|q uh k n|d| |]; simpl.
  - rewrite exec_op_bind_fst.
    destruct (query_outcome q uh m k s)
      as (s' & r & -> & _ & _ & [[_ Hh]|(_ & _ & _ & Hh)] & _); simpl; [by left|].
    destruct uh; [right; right; left; eauto|by left].
  - rewrite exec_op_bind_fst. pose proof (stream_effect q uh k n s) as H.
    destruct (query_streaming q uh k n s) as [s' [[items [| |]]|e]]; simpl;
      try (left; apply H).
    destruct H as [_ ->]. destruct uh.
    + right; right; right. eauto.
    + left. apply app_nil_r.
  - rewrite exec_op_bind_fst. left. pose proof (initialize_effect d s) as H.
    destruct (process_documents d); rewrite H; destruct s; reflexivity.
  - right; left. destruct s; reflexivity.
  - right; left. destruct s; reflexivity.
Qed.

Lemma exec_op_counts (o : Op) (s : Session) :
  successful_retrievals (stats s) <= total_queries (stats s) ->
  successful_retrievals (stats (fst (exec_op o s)))
    <= total_queries (stats (fst (exec_op o s))).
Proof.
  intros Hle. destruct o as [q uh m k|q uh k n|d| |]; simpl.
  - rewrite exec_op_bind_fst.
    destruct (query_outcome q uh m k s) as (s' & r & -> & Ht & Hs & _).
    simpl. rewrite Ht, Hs. destruct (bool_decide _); lia.
  - rewrite exec_op_bind_fst. pose proof (stream_effect q uh k n s) as H.
    destruct (query_streaming q uh k n s) as [s' [[items [| |]]|e]]; simpl;
      destruct H as [-> _]; done.
  - rewrite exec_op_bind_fst. pose proof (initialize_effect d s) as H.
    destruct (process_documents d); rewrite H; destruct s; done.
  - destruct s; done.
  - destruct s; simpl; lia.
Qed.

End SessionInvariants.

(** ** The answer of [query] *)

(** X9: [query] never raises; it returns either the no-knowledge-base
    dictionary or a dictionary with [success = True], a context and
    [retrieved_docs] equal to the number of sources; every source's
    [content_preview] is at most 150 characters of the document followed
    by ["..."], which is appended even when nothing was cut. *)
Theorem query_response_shape `{E : Env} (q : string) (uh : bool) (m : string)
  (k : option nat) (s : Session) :
  exists s' r, query q uh m k s = (s', Ok r) /\
    (r = no_kb_response \/
     (success r = true /\ context r <> None /\
      retrieved_docs r = Some (length (sources r)))) /\
    Forall (fun src => exists pre, content_preview src = pre +:+ "..." /\
                                   str_len pre <= 150) (sources r).
Proof.
  destruct (query_outcome q uh m k s)
    as (s' & r & Hq & _ & _ & [[Hr _]|(H1 & H2 & H3 & _)] & Hp);
    exists s', r; repeat split; auto.
Qed.

(** X10: every [query] call adds one to [total_queries], and adds one to
    [successful_retrievals] exactly when its response lists at least one
    source. *)
Theorem query_counts_retrievals `{E : Env} (q : string) (uh : bool) (m : string)
  (k : option nat) (s : Session) :
  exists s' r, query q uh m k s = (s', Ok r) /\
    total_queries (stats s') = S (total_queries (stats s)) /\
    successful_retrievals (stats s')
      = successful_retrievals (stats s)
        + (if bool_decide (sources r = []) then 0 else 1).
Proof.
  destruct (query_outcome q uh m k s) as (s' & r & Hq & Ht & Hs & _).
  eauto.
Qed.

(** ** Invariants over any sequence of calls *)

(** X11: whatever sequence of [query], [query_streaming] (drained or
    abandoned), [initialize_knowledge_base], [clear_history] and
    [reset_knowledge_base] calls is made, [successful_retrievals] never
    exceeds [total_queries] when it did not at the start (a new chatbot
    starts at zero). *)
Theorem successful_le_total `{E : Env} (ops : list Op) (s : Session) :
  successful_retrievals (stats s) <= total_queries (stats s) ->
  successful_retrievals (stats (fst (run_ops ops s)))
    <= total_queries (stats (fst (run_ops ops s))).
Proof.
  intros Hs.
  apply (run_ops_preserve
    (fun s => successful_retrievals (stats s) <= total_queries (stats s))
    (fun _ => True)); [|by apply Forall_true|done].
  intros o s' _. apply exec_op_counts.
Qed.

Lemma successful_le_total_witness :
  successful_retrievals (stats Demo.fresh) <= total_queries (stats Demo.fresh) /\
  successful_retrievals (stats (fst (@run_ops Demo.env Demo2.mixed_ops Demo.fresh)))
    <= total_queries (stats (fst (@run_ops Demo.env Demo2.mixed_ops Demo.fresh))).
Proof.
  split; [simpl; lia|].
  apply (@successful_le_total Demo.env Demo2.mixed_ops Demo.fresh). simpl. lia.
Defined.

(** X12: whatever sequence of calls is made, a history made of
    (question, answer) pairs stays made of such pairs, so its length stays
    even: [query] truncates to the last 10 messages, an even number, and an
    abandoned stream records nothing. *)
Theorem history_stays_paired `{E : Env} (ops : list Op) (s : Session) :
  pairs (chat_history s) = true ->
  pairs (chat_history (fst (run_ops ops s))) = true /\
  Nat.even (length (chat_history (fst (run_ops ops s)))) = true.
Proof.
  intros Hp.
  assert (H : pairs (chat_history (fst (run_ops ops s))) = true).
  { apply (run_ops_preserve (fun s => pairs (chat_history s) = true)
      (fun _ => True)); [|by apply Forall_true|done].
    intros o s' _ Hs'.
    destruct (exec_op_history o s')
      as [->|[->|[(q & a & ->)|(_ & q & a & ->)]]]; [done|done| |].
    - by apply pairs_record_turn.
    - by rewrite (pairs_app_pair q a (length (chat_history s'))). }
  split; [done|]. by apply (pairs_even _ _ (le_n _)).
Qed.

Lemma history_stays_paired_witness :
  pairs (chat_history Demo.fresh) = true /\
  pairs (chat_history (fst (@run_ops Demo.env Demo2.mixed_ops Demo.fresh))) = true /\
  Nat.even (length (chat_history (fst (@run_ops Demo.env Demo2.mixed_ops Demo.fresh))))
    = true.
Proof.
  split; [reflexivity|].
  apply (@history_stays_paired Demo.env Demo2.mixed_ops Demo.fresh). reflexivity.
Defined.

(** X13: without [query_streaming] calls that use the history, the
    [chat_history_length] reported by [get_stats] never exceeds 10 when the
    history held at most 10 messages at the start. *)
Theorem history_bounded_without_streaming `{E : Env} (ops : list Op)
  (s : Session) :
  length (chat_history s) <= 10 ->
  Forall (fun o => streams_history o = false) ops ->
  exists rep, get_stats (fst (run_ops ops s)) = (fst (run_ops ops s), Ok rep) /\
    chat_history_length rep <= 10.
Proof.
  intros Hl Hops.
  assert (H : length (chat_history (fst (run_ops ops s))) <= 10).
  { apply (run_ops_preserve (fun s => length (chat_history s) <= 10)
      (fun o => streams_history o = false)); [|done|done].
    intros o s' Ho Hs'.
    destruct (exec_op_history o s')
      as [->|[->|[(q & a & ->)|(Hst & _)]]]; [done|simpl; lia| |congruence].
    by apply record_turn_le10. }
  eexists. split; [reflexivity|]. exact H.
Qed.

Lemma history_bounded_without_streaming_witness :
  length (chat_history Demo.ready) <= 10 /\
  Forall (fun o => streams_history o = false)
    (repeat (OpQuery "Who created Python?" true "basic" None) 7) /\
  exists rep, @get_stats (fst (@run_ops Demo.env
        (repeat (OpQuery "Who created Python?" true "basic" None) 7) Demo.ready))
      = (fst (@run_ops Demo.env
          (repeat (OpQuery "Who created Python?" true "basic" None) 7) Demo.ready),
         Ok rep) /\
    chat_history_length rep <= 10.
Proof.
  assert (Hops : Forall (fun o => streams_history o = false)
    (repeat (OpQuery "Who created Python?" true "basic" None) 7)).
  { repeat constructor. }
  split; [simpl; lia|]. split; [exact Hops|].
  apply (@history_bounded_without_streaming Demo.env _ Demo.ready); [simpl; lia|exact Hops].
Defined.

(** ** Streaming *)

(** X14: [query_streaming] never changes the statistics.  When its generator
    is drained, the history gains the question and, as the answer, exactly
    the concatenation of the chunks the consumer received (nothing when
    [use_history] is false); when it is abandoned before the end, or raises,
    the history is as it was. *)
Theorem streaming_records_received_text `{E : Env} (q : string) (uh : bool)
  (k : option nat) (n : nat) (s : Session) :
  match query_streaming q uh k n s with
  | (s', Ok (items, GenDone)) =>
      stats s' = stats s /\
      chat_history s' = (chat_history s ++
        (if uh then [HumanMessage q; AIMessage (streamed_text items)] else []))%list
  | (s', _) => stats s' = stats s /\ chat_history s' = chat_history s
  end.
Proof. apply stream_effect. Qed.




(** ** The prompts see the last four messages *)

Lemma last_n_nil {A} (n : nat) (h : list A) :
  0 < n -> last_n n h = [] <-> h = [].
Proof.
  intros Hn. unfold last_n. split; [|intros ->; reflexivity].
  intros Hd. apply (f_equal length) in Hd. rewrite length_drop in Hd.
  destruct h; [done|simpl in Hd; lia].
Qed.

Lemma last_n_same_nil {A} (h1 h2 : list A) :
  last_n 4 h1 = last_n 4 h2 -> (h1 = [] <-> h2 = []).
Proof.
  intros Heq. rewrite <- (last_n_nil 4 h1), <- (last_n_nil 4 h2) by lia.
  by rewrite Heq.
Qed.

Lemma last_n_idem {A} (n : nat) (h : list A) : last_n n (last_n n h) = last_n n h.
Proof.
  unfold last_n. rewrite length_drop, drop_drop. f_equal. lia.
Qed.

Lemma answer_prompt_window `{E : Env} (q c : string) (h1 h2 : list Msg) :
  last_n 4 h1 = last_n 4 h2 -> answer_prompt q c h1 = answer_prompt q c h2.
Proof.
  intros Heq. unfold answer_prompt, history_text. rewrite Heq.
  pose proof (last_n_same_nil h1 h2 Heq) as Hn.
  destruct h1 as [|x1 h1], h2 as [|x2 h2]; try reflexivity;
    exfalso; naive_solver.
Qed.

(** X16: the answer of [generate_answer], the fragments of
    [generate_answer_streaming] and the search query of [rephrase_question]
    depend on the chat history only through its last four messages. *)
Theorem prompt_window_last_four `{E : Env} (q c : string) (h1 h2 : list Msg) :
  last_n 4 h1 = last_n 4 h2 ->
  generate_answer q c h1 = generate_answer q c h2 /\
  generate_answer_streaming q c h1 = generate_answer_streaming q c h2 /\
  rephrase_question q h1 = rephrase_question q h2.
Proof.
  intros Heq.
  unfold generate_answer, generate_answer_streaming.
  rewrite (answer_prompt_window q c h1 h2 Heq).
  split; [reflexivity|]. split; [reflexivity|].
  unfold rephrase_question, history_text. rewrite Heq.
  pose proof (last_n_same_nil h1 h2 Heq) as Hn.
  destruct h1 as [|x1 h1], h2 as [|x2 h2]; try reflexivity;
    exfalso; naive_solver.
Qed.

Lemma prompt_window_last_four_witness :
  last_n 4 Demo2.six_messages = last_n 4 (last_n 4 Demo2.six_messages) /\
  @generate_answer Demo.env "And then?" "" Demo2.six_messages
    = @generate_answer Demo.env "And then?" "" (last_n 4 Demo2.six_messages) /\
  @generate_answer_streaming Demo.env "And then?" "" Demo2.six_messages
    = @generate_answer_streaming Demo.env "And then?" "" (last_n 4 Demo2.six_messages) /\
  @rephrase_question Demo.env "And then?" Demo2.six_messages
    = @rephrase_question Demo.env "And then?" (last_n 4 Demo2.six_messages).
Proof.
  split; [reflexivity|].
  apply (@prompt_window_last_four Demo.env "And then?" "" Demo2.six_messages
           (last_n 4 Demo2.six_messages)).
  reflexivity.
Defined.

(** ** The model down *)

(** X17: when every call to the model raises, a [query] with
    [use_history] on a session with a store handle still reports
    [success = True]; its answer is the error text of [generate_answer],
    and that text is recorded as the last message of the history. *)
Theorem query_when_model_down `{E : Env} (q : string) (m : string)
  (k : option nat) (s : Session) (e : string) :
  (forall prompt, llm prompt = Raise e) ->
  vector_store s = true ->
  exists s' r, query q true m k s = (s', Ok r) /\ success r = true /\
    answer r = "Error generating response: " +:+ e +:+ nl +:+ nl
               +:+ "Please make sure Ollama is running." /\
    last (chat_history s') = Some (AIMessage (answer r)).
Proof.
  intros Hllm Hvs. destruct s as [p vs h st]. simpl in Hvs. subst vs.
  unfold query. mred.
  match goal with
  | |- context [retrieve_by ?mm ?sq ?kk ?s1] =>
      destruct (retrieve_by_ready mm sq kk s1) as [r ->]; [done|]
  end.
  mred. destruct (bool_decide (r <> [])); mred;
    unfold generate_answer; rewrite Hllm; eexists _, _;
    (split; [reflexivity|]); simpl; (split; [reflexivity|]);
    (split; [reflexivity|]); apply record_turn_last.
Qed.

Lemma query_when_model_down_witness :
  (forall prompt, @llm Demo.env_down prompt = Raise "Connection refused") /\
  vector_store Demo.ready = true /\
  exists s' r, @query Demo.env_down "Who created Python?" true "basic" None Demo.ready
                 = (s', Ok r) /\ success r = true /\
    answer r = "Error generating response: " +:+ "Connection refused" +:+ nl +:+ nl
               +:+ "Please make sure Ollama is running." /\
    last (chat_history s') = Some (AIMessage (answer r)).
Proof.
  assert (Hllm : forall prompt, @llm Demo.env_down prompt = Raise "Connection refused").
  { intros prompt. reflexivity. }
  split; [exact Hllm|]. split; [reflexivity|].
  exact (@query_when_model_down Demo.env_down "Who created Python?" "basic" None
           Demo.ready "Connection refused" Hllm eq_refl).
Defined.

(** X18: with [use_history = False], [query] and [query_streaming] leave the
    chat history as it was, whatever happens. *)
Theorem no_history_mode_keeps_history `{E : Env} (q m : string) (k : option nat)
  (n : nat) (s : Session) :
  chat_history (fst (query q false m k s)) = chat_history s /\
  chat_history (fst (query_streaming q false k n s)) = chat_history s.
Proof.
  split.
  - destruct (query_outcome q false m k s)
      as (s' & r & -> & _ & _ & [[_ Hh]|(_ & _ & _ & Hh)] & _); exact Hh.
  - pose proof (stream_effect q false k n s) as H.
    destruct (query_streaming q false k n s) as [s' [[items [| |]]|e]];
      simpl; destruct H as [_ ->]; try done. apply app_nil_r.
Qed.

(** ** Loading files *)

Lemma tag_file_meta (p : string) (r : Document) :
  page_content (Ingestion.tag_file p r) = page_content r /\
  metadata (Ingestion.tag_file p r) !! "source" = Some (MStr p) /\
  metadata (Ingestion.tag_file p r) !! "filename" = Some (MStr (path_name p)) /\
  (forall key, key <> "source" -> key <> "filename" ->
     metadata (Ingestion.tag_file p r) !! key = metadata r !! key).
Proof.
  unfold Ingestion.tag_file; simpl. split; [done|]. split.
  - rewrite lookup_insert_ne by discriminate. apply lookup_insert_eq.
  - split; [apply lookup_insert_eq|].
    intros key Hs Hf. rewrite !lookup_insert_ne by congruence. done.
Qed.

Lemma load_document_tags (loader_load : string -> string -> Exc (list Document))
  (p : string) (docs : list Document) :
  Ingestion.load_document loader_load p = Ok docs ->
  Forall (fun d => metadata d !! "source" = Some (MStr p) /\
                   metadata d !! "filename" = Some (MStr (path_name p))) docs.
Proof.
  unfold Ingestion.load_document. case_bool_decide; [|discriminate].
  destruct (loader_load _ p) as [raw|e]; [|discriminate].
  intros Hd. injection Hd as <-. apply Forall_forall. intros d Hd.
  rewrite map_fmap_eq in Hd. apply list_elem_of_fmap in Hd as (r & -> & _).
  pose proof (tag_file_meta p r) as (_ & H1 & H2 & _). auto.
Qed.

(** X19: [load_document] chooses the loader by the lower-cased suffix of
    the file name, so [.PDF] is read as [.pdf]; for any other suffix it
    raises [ValueError("Unsupported file type: <suffix>")], and it passes on
    the exception of a loader that fails.  On success every page keeps the
    loader's text and metadata, except that [source] is set to the path and
    [filename] to the file name. *)
Theorem load_document_outcome (loader_load : string -> string -> Exc (list Document))
  (p : string) :
  match Ingestion.load_document loader_load p with
  | Ok docs =>
      lower (path_suffix p) ∈ Ingestion.loaders /\
      exists raw, loader_load (lower (path_suffix p)) p = Ok raw /\
        Forall2 (fun d r =>
          page_content d = page_content r /\
          metadata d !! "source" = Some (MStr p) /\
          metadata d !! "filename" = Some (MStr (path_name p)) /\
          (forall key, key <> "source" -> key <> "filename" ->
             metadata d !! key = metadata r !! key)) docs raw
  | Raise e =>
      ((lower (path_suffix p) ∉ Ingestion.loaders) /\
       e = "Unsupported file type: " +:+ lower (path_suffix p)) \/
      (lower (path_suffix p) ∈ Ingestion.loaders /\
       loader_load (lower (path_suffix p)) p = Raise e)
  end.
Proof.
  unfold Ingestion.load_document. case_bool_decide as Hin; [|left; done].
  destruct (loader_load _ p) as [raw|e] eqn:Hl; [|right; done].
  split; [done|]. exists raw. split; [done|].
  clear Hl. induction raw as [|r raw IH]; simpl; constructor; [|exact IH].
  apply tag_file_meta.
Qed.

(** X20: [load_documents] never raises: a file whose loading fails is
    skipped.  Every document it returns comes from a path of the directory
    walk with a supported suffix, and carries that path as [source] and its
    file name as [filename]. *)
Theorem load_documents_provenance
  (loader_load : string -> string -> Exc (list Document))
  (glob_all : string -> list string) (directory : string) :
  Forall (fun d => exists p, p ∈ glob_all directory /\
            lower (path_suffix p) ∈ Ingestion.supported_extensions /\
            metadata d !! "source" = Some (MStr p) /\
            metadata d !! "filename" = Some (MStr (path_name p)))
    (Ingestion.load_documents loader_load glob_all directory).
Proof.
  unfold Ingestion.load_documents.
  generalize (glob_all directory) as paths.
  induction paths as [|p ps IH]; simpl; [constructor|].
  apply Forall_app. split.
  - case_bool_decide as Hs; [|constructor].
    destruct (Ingestion.load_document loader_load p) as [docs|e] eqn:Hl;
      [|constructor].
    apply load_document_tags in Hl.
    eapply Forall_impl; [exact Hl|]. intros d [H1 H2].
    exists p. split; [apply elem_of_cons; by left|]. auto.
  - eapply Forall_impl; [exact IH|]. intros d (p' & Hp' & Hs & H1 & H2).
    exists p'. split; [apply elem_of_cons; by right|]. auto.
Qed.

Lemma Forall_imap {A B} (P : A -> Prop) (Q : B -> Prop) :
  forall (l : list A) (f : nat -> A -> B),
  (forall i x, P x -> Q (f i x)) -> Forall P l -> Forall Q (imap f l).
Proof.
  induction l as [|x l IH]; intros f Hf Hl; simpl; [constructor|].
  inversion Hl; subst. constructor; [by apply Hf|].
  apply IH; [|done]. intros i y. apply Hf.
Qed.

Lemma split_documents_meta `{E : Env} (P : gmap string MVal -> Prop)
  (docs : list Document) :
  Forall (fun d => P (metadata d)) docs ->
  Forall (fun c => P (metadata c)) (split_documents docs).
Proof.
  intros Hd. apply Forall_forall. intros c Hc.
  unfold split_documents in Hc. apply list_elem_of_bind in Hc as (d & Hc & Hin).
  rewrite map_fmap_eq in Hc. apply list_elem_of_fmap in Hc as (t & -> & _).
  rewrite Forall_forall in Hd. exact (Hd d Hin).
Qed.

(** X21: every chunk produced by [process_documents] from the loaders
    carries the path ([source]) and the file name ([filename]) of a file of
    the directory walk with a supported suffix, and a [chunk_id]. *)
Theorem ingested_chunks_provenance `{E : Env}
  (loader_load : string -> string -> Exc (list Document))
  (glob_all : string -> list string) (directory : string) :
  Forall (fun c => exists p, p ∈ glob_all directory /\
            lower (path_suffix p) ∈ Ingestion.supported_extensions /\
            metadata c !! "source" = Some (MStr p) /\
            metadata c !! "filename" = Some (MStr (path_name p)) /\
            exists i, metadata c !! "chunk_id" = Some (MInt i))
    (Ingestion.process_documents loader_load glob_all directory).
Proof.
  unfold Ingestion.process_documents, chunk_documents.
  eapply Forall_imap; [|apply (split_documents_meta (fun m => exists p,
    p ∈ glob_all directory /\
    lower (path_suffix p) ∈ Ingestion.supported_extensions /\
    m !! "source" = Some (MStr p) /\ m !! "filename" = Some (MStr (path_name p))));
    exact (load_documents_provenance loader_load glob_all directory)].
  intros i c (p & Hp & Hs & H1 & H2). simpl. exists p.
  rewrite !lookup_insert_ne by discriminate.
  split; [done|]. split; [done|]. split; [done|]. split; [done|].
  exists i. apply lookup_insert_eq.
Qed.
